(** * Host-time bridge of the simulator: [arch/sim/src/sim/posix/sim_hosttime.c]

    A shallow embedding of the six entry points of [sim_hosttime.c]
    ([host_inittimer], [host_gettime], [host_sleep], [host_sleepuntil],
    [host_settimer], [host_timerirq]) together with the two file-scope
    variables [g_start] and [g_timer].

    - [uint64_t] values are integers in [Z]; every C operation on them is
      written with its reduction modulo [2^64].
    - The host operating system is an oracle ([host]) that answers the
      library calls the file makes, and every call made is recorded in a
      trace of [host_call]s, so that "which sleep was requested" and "how the
      timer was programmed" are observable.
    - The two build variants ([NUTTX_DARWIN] defined or not) are the two
      values of [platform]; the choice is an argument fixed for a whole run,
      as the preprocessor fixes it for a whole build.
    - The file computes in [uint64_t]; what it hands to the host passes
      into the host's own types.  The argument of [usleep] is converted to
      [useconds_t], an unsigned 32-bit type on Linux and on Darwin, and the
      conversion ([to_useconds]) is part of the call.  The fields of the
      timer structures ([time_t] and [long] or [suseconds_t]) hold the
      values the file stores in them: the section on ranges bounds these
      below [2^35] for seconds and below [2^30] for the sub-second
      fields. *)

From Stdlib Require Import ZArith List Bool Lia.
Import ListNotations.
Local Open Scope Z_scope.

(** ** 64-bit unsigned arithmetic *)

Module U64.

Definition modulus : Z := 2 ^ 64.

(** Conversion of an integer to [uint64_t]. *)
Definition wrap (x : Z) : Z := x mod modulus.

(** The values a [uint64_t] object can hold. *)
Definition range (x : Z) : Prop := 0 <= x < modulus.

Definition add (a b : Z) : Z := wrap (a + b).
Definition sub (a b : Z) : Z := wrap (a - b).
Definition mul (a b : Z) : Z := wrap (a * b).

(** [/] and [%] on unsigned operands neither wrap nor differ from the
    integer quotient and remainder. *)
Definition div (a b : Z) : Z := a / b.
Definition rem (a b : Z) : Z := a mod b.

(** [a > b] on unsigned operands. *)
Definition gtb (a b : Z) : bool := b <? a.

End U64.

(** ** The host interface *)

(** [struct timespec]. *)
Record timespec : Type := mk_timespec { tv_sec : Z; tv_nsec : Z }.

(** [struct timeval]; its seconds field is [tv_sec] in C. *)
Record timeval : Type := mk_timeval { tvl_sec : Z; tv_usec : Z }.

(** [struct itimerspec]; the fields are [it_value] and [it_interval] in C. *)
Record itimerspec : Type :=
  mk_itimerspec { its_value : timespec; its_interval : timespec }.

(** [struct itimerval]; the fields are [it_value] and [it_interval] in C. *)
Record itimerval : Type :=
  mk_itimerval { itv_value : timeval; itv_interval : timeval }.

Inductive clockid_t : Type := CLOCK_REALTIME | CLOCK_MONOTONIC.

Inductive sigev_notify_t : Type := SIGEV_SIGNAL.

(** [struct sigevent]; [sigev_value_ptr] is [sigev_value.sival_ptr], with
    [NULL] as [0]. *)
Record sigevent : Type :=
  mk_sigevent { sigev_notify : sigev_notify_t; sigev_signo : Z; sigev_value_ptr : Z }.

Definition NULL : Z := 0.

Inductive itimer_which : Type := ITIMER_REAL.

(** The [flags] argument of [timer_settime]: [0] or [TIMER_ABSTIME]. *)
Inductive settime_flags : Type := TIMER_RELATIVE | TIMER_ABSTIME.

(** One call into the host, with the arguments the host receives.  The
    argument of [Call_usleep] is a [useconds_t]: the value of the argument
    expression after its conversion to the parameter type. *)
Inductive host_call : Type :=
| Call_clock_gettime (clk : clockid_t)
| Call_usleep (usec : Z)
| Call_timer_create (clk : clockid_t) (sev : sigevent)
| Call_setitimer (which : itimer_which) (it : itimerval)
| Call_timer_settime (timerid : Z) (flags : settime_flags) (its : itimerspec).

(** What the host answers during one operation of the bridge.
    [clock_tp clk] is the content of [tp] after [clock_gettime(clk, &tp)]
    and [clock_ret clk] the value that call returns; [timer_create_id] is the
    handle stored through the third argument of [timer_create] when it
    succeeds. *)
Record host : Type := mk_host {
  clock_tp : clockid_t -> timespec;
  clock_ret : clockid_t -> Z;
  usleep_ret : Z;
  timer_create_ret : Z;
  timer_create_id : Z;
  setitimer_ret : Z;
  timer_settime_ret : Z
}.

(** ** Program state and the monad of the bridge *)

(** The build variant: [Darwin] when [NUTTX_DARWIN] is defined. *)
Inductive platform : Type := Darwin | Posix.

(** The file-scope variables.  [g_timer] exists on the [Posix] build only;
    the [Darwin] build never touches the field. *)
Record sim_state : Type := mk_state { g_start : Z; g_timer : Z }.

(** Objects of static storage duration start zeroed. *)
Definition initial_state : sim_state := {| g_start := 0; g_timer := 0 |}.

(** The type invariant of the state: [g_start] is a [uint64_t]. *)
Definition wf_state (st : sim_state) : Prop := U64.range (g_start st).

(** A computation reads the host's answers, threads the file-scope state and
    emits the host calls it makes, in order. *)
Definition M (A : Type) : Type :=
  host -> sim_state -> A * sim_state * list host_call.

Definition ret {A : Type} (a : A) : M A := fun _ st => (a, st, []).

Definition bind {A B : Type} (m : M A) (k : A -> M B) : M B :=
  fun h st =>
    let '(a, st1, t1) := m h st in
    let '(b, st2, t2) := k a h st1 in
    (b, st2, t1 ++ t2).

Declare Scope sim_scope.
Delimit Scope sim_scope with sim.
Notation "x <- m ;; k" := (bind m (fun x => k))
  (at level 61, m at next level, right associativity) : sim_scope.
Notation "' pat <- m ;; k" := (bind m (fun x => match x with pat => k end))
  (at level 61, pat pattern, m at next level, right associativity) : sim_scope.
Notation "m ;; k" := (bind m (fun _ => k))
  (at level 61, right associativity) : sim_scope.
Local Open Scope sim_scope.

Definition result_of {A : Type} (r : A * sim_state * list host_call) : A :=
  fst (fst r).
Definition state_of {A : Type} (r : A * sim_state * list host_call) : sim_state :=
  snd (fst r).
Definition calls_of {A : Type} (r : A * sim_state * list host_call) : list host_call :=
  snd r.

(** Reads and writes of the file-scope variables. *)
Definition read_g_start : M Z := fun _ st => (g_start st, st, []).
Definition read_g_timer : M Z := fun _ st => (g_timer st, st, []).
Definition write_g_start (v : Z) : M unit :=
  fun _ st => (tt, {| g_start := v; g_timer := g_timer st |}, []).

(** The host calls. *)
Definition clock_gettime (clk : clockid_t) : M (Z * timespec) :=
  fun h st => ((clock_ret h clk, clock_tp h clk), st, [Call_clock_gettime clk]).

(** [useconds_t] is [unsigned int] on Linux and [__uint32_t] on Darwin:
    a [uint64_t] argument is reduced modulo [2^32] on its way into
    [usleep]. *)
Definition useconds_modulus : Z := 2 ^ 32.

Definition to_useconds (x : Z) : Z := x mod useconds_modulus.

(** [usleep(usec)], with [usec] the [uint64_t] value of the argument
    expression. *)
Definition usleep (usec : Z) : M Z :=
  fun h st => (usleep_ret h, st, [Call_usleep (to_useconds usec)]).

(** [timer_create(clk, &sev, &g_timer)]: the handle is stored in [g_timer]
    when the call succeeds. *)
Definition timer_create (clk : clockid_t) (sev : sigevent) : M Z :=
  fun h st =>
    (timer_create_ret h,
     if timer_create_ret h =? 0
     then {| g_start := g_start st; g_timer := timer_create_id h |}
     else st,
     [Call_timer_create clk sev]).

Definition setitimer (which : itimer_which) (it : itimerval) : M Z :=
  fun h st => (setitimer_ret h, st, [Call_setitimer which it]).

Definition timer_settime (timerid : Z) (flags : settime_flags) (its : itimerspec) : M Z :=
  fun h st => (timer_settime_ret h, st, [Call_timer_settime timerid flags its]).

(** ** The functions of [sim_hosttime.c] *)

(** [1000000000ull * tp.tv_sec + tp.tv_nsec]: both fields are converted to
    [unsigned long long], and the product and the sum are taken modulo
    [2^64]. *)
Definition timespec_ns (tp : timespec) : Z :=
  U64.add (U64.mul 1000000000 (U64.wrap (tv_sec tp))) (U64.wrap (tv_nsec tp)).

Section Bridge.

(** The signal number [SIGALRM] of the host's [<signal.h>]. *)
Variable SIGALRM : Z.

Definition host_inittimer (p : platform) : M Z :=
  '(_, tp) <- clock_gettime CLOCK_MONOTONIC ;;
  write_g_start (timespec_ns tp) ;;
  match p with
  | Darwin => ret 0
  | Posix =>
      let sigev := {| sigev_notify := SIGEV_SIGNAL;
                      sigev_signo := SIGALRM;
                      sigev_value_ptr := NULL |} in
      timer_create CLOCK_MONOTONIC sigev
  end.

Definition host_gettime (rtc : bool) : M Z :=
  '(_, tp) <- clock_gettime (if rtc then CLOCK_REALTIME else CLOCK_MONOTONIC) ;;
  let current := timespec_ns tp in
  start <- read_g_start ;;
  ret (if rtc then current else U64.sub current start).

Definition host_sleep (nsec : Z) : M unit :=
  usleep (U64.div (U64.add nsec 999) 1000) ;;
  ret tt.

Definition host_sleepuntil (nsec : Z) : M unit :=
  now <- host_gettime false ;;
  if U64.gtb nsec (U64.add now 1000)
  then usleep (U64.div (U64.sub nsec now) 1000) ;; ret tt
  else ret tt.

Definition host_settimer (p : platform) (nsec : Z) : M Z :=
  match p with
  | Darwin =>
      let usec := U64.div nsec 1000 in
      let it := {| itv_value := {| tvl_sec := U64.div usec 1000000;
                                   tv_usec := U64.rem usec 1000000 |};
                   itv_interval := {| tvl_sec := 0; tv_usec := 0 |} |} in
      setitimer ITIMER_REAL it
  | Posix =>
      start <- read_g_start ;;
      let abs := U64.add nsec start in
      let tspec := {| its_value := {| tv_sec := U64.div abs 1000000000;
                                      tv_nsec := U64.rem abs 1000000000 |};
                      its_interval := {| tv_sec := 0; tv_nsec := 0 |} |} in
      timer <- read_g_timer ;;
      timer_settime timer TIMER_ABSTIME tspec
  end.

Definition host_timerirq : M Z := ret SIGALRM.

End Bridge.

(** ** Sequences of operations *)

(** One call of an entry point of the bridge. *)
Inductive op : Type :=
| Op_inittimer
| Op_gettime (rtc : bool)
| Op_sleep (nsec : Z)
| Op_sleepuntil (nsec : Z)
| Op_settimer (nsec : Z)
| Op_timerirq.

Definition is_init (o : op) : bool :=
  match o with Op_inittimer => true | _ => false end.

(** The value an entry point returns; [None] for the [void] ones. *)
Definition run_op (SIGALRM : Z) (p : platform) (o : op) : M (option Z) :=
  match o with
  | Op_inittimer => r <- host_inittimer SIGALRM p ;; ret (Some r)
  | Op_gettime rtc => r <- host_gettime rtc ;; ret (Some r)
  | Op_sleep nsec => host_sleep nsec ;; ret None
  | Op_sleepuntil nsec => host_sleepuntil nsec ;; ret None
  | Op_settimer nsec => r <- host_settimer p nsec ;; ret (Some r)
  | Op_timerirq => r <- host_timerirq SIGALRM ;; ret (Some r)
  end.

(** A run: each operation of the list is called in turn, against the host as
    it answers at that moment; the state is threaded from call to call. *)
Fixpoint run_ops (SIGALRM : Z) (p : platform) (os : list (op * host))
  (st : sim_state) : list (option Z) * sim_state * list host_call :=
  match os with
  | [] => ([], st, [])
  | (o, h) :: rest =>
      let '(r, st1, t1) := run_op SIGALRM p o h st in
      let '(rs, st2, t2) := run_ops SIGALRM p rest st1 in
      (r :: rs, st2, t1 ++ t2)
  end.

(** A run that never calls [host_inittimer]. *)
Definition no_init (os : list (op * host)) : bool :=
  forallb (fun oh => negb (is_init (fst oh))) os.

(** ** When an armed timer expires *)

(** The instant, in nanoseconds, that the monotonic clock shows while the
    operation runs, and the same instant on the virtual timeline, which
    starts at the epoch. *)
Definition host_now (h : host) : Z := timespec_ns (clock_tp h CLOCK_MONOTONIC).
Definition virtual_now (h : host) (st : sim_state) : Z := host_now h - g_start st.

(** The elapsed time that a monotonic read returns, which is what
    [host_sleepuntil] takes for "now". *)
Definition elapsed (h : host) (st : sim_state) : Z :=
  result_of (host_gettime false h st).

Definition timespec_total_ns (ts : timespec) : Z :=
  tv_sec ts * 1000000000 + tv_nsec ts.

Definition timeval_total_ns (tv : timeval) : Z :=
  (tvl_sec tv * 1000000 + tv_usec tv) * 1000.

(** What the host returned to a timer-programming call. *)
Definition arming_ret (h : host) (c : host_call) : Z :=
  match c with
  | Call_setitimer _ _ => setitimer_ret h
  | Call_timer_settime _ _ _ => timer_settime_ret h
  | _ => 0
  end.

(** The instant at which the timer programmed by call [c], made at instant
    [t_call] and answered with [ret], expires, as POSIX defines the two
    calls.  A call that fails ([ret] not [0]) programs nothing, and a zero
    value disarms the timer: [None] in both cases.  An absolute
    [timer_settime] expires when the timer's clock reaches the given value,
    which is at once, at the instant of the call, when that value has
    already passed; an interval given to [setitimer] or to a relative
    [timer_settime] runs from the instant of the call.  Intervals are
    measured on the monotonic timeline. *)
Definition host_expiry (t_call ret : Z) (c : host_call) : option Z :=
  if negb (ret =? 0) then None
  else
    match c with
    | Call_timer_settime _ TIMER_ABSTIME its =>
        if timespec_total_ns (its_value its) =? 0 then None
        else Some (Z.max t_call (timespec_total_ns (its_value its)))
    | Call_timer_settime _ TIMER_RELATIVE its =>
        if timespec_total_ns (its_value its) =? 0 then None
        else Some (t_call + timespec_total_ns (its_value its))
    | Call_setitimer ITIMER_REAL it =>
        if timeval_total_ns (itv_value it) =? 0 then None
        else Some (t_call + timeval_total_ns (itv_value it))
    | _ => None
    end.

Definition is_arming (c : host_call) : bool :=
  match c with
  | Call_setitimer _ _ | Call_timer_settime _ _ _ => true
  | _ => false
  end.

(** The call that governs the timer after a trace: the last one that
    programs it. *)
Fixpoint last_arming (calls : list host_call) : option host_call :=
  match calls with
  | [] => None
  | c :: rest =>
      match last_arming rest with
      | Some c' => Some c'
      | None => if is_arming c then Some c else None
      end
  end.

(** The point of the virtual timeline at which the timer expires after an
    operation that ran in state [st] against host [h] and made [calls]. *)
Definition virtual_expiry (h : host) (st : sim_state) (calls : list host_call)
  : option Z :=
  match last_arming calls with
  | Some c =>
      option_map (fun t => t - g_start st)
        (host_expiry (host_now h) (arming_ret h c) c)
  | None => None
  end.

(** The repeat interval a timer-programming call asks for, in nanoseconds. *)
Definition repeat_interval_ns (c : host_call) : option Z :=
  match c with
  | Call_timer_settime _ _ its => Some (timespec_total_ns (its_interval its))
  | Call_setitimer _ it => Some (timeval_total_ns (itv_interval it))
  | _ => None
  end.

(** ** The specification's side *)

(** The relative-interval strategy in the specification's words: "compute a
    relative offset from now to the deadline and request a one-shot relative
    expiry".  The offset is handed to [setitimer] in its own unit, whole
    microseconds. *)
Definition spec_settimer_relative (nsec : Z) : M Z :=
  now <- host_gettime false ;;
  let offset := U64.div (U64.sub nsec now) 1000 in
  let it := {| itv_value := {| tvl_sec := U64.div offset 1000000;
                               tv_usec := U64.rem offset 1000000 |};
               itv_interval := {| tvl_sec := 0; tv_usec := 0 |} |} in
  setitimer ITIMER_REAL it.

(** The least integer [q] with [a <= q * b], for [0 < b]. *)
Definition ceil_div (a b : Z) : Z := - ((- a) / b).

(** ** Ranges of what is handed to the host *)

(** The argument of an operation is a [uint64_t]. *)
Definition op_arg_range (o : op) : Prop :=
  match o with
  | Op_sleep nsec | Op_sleepuntil nsec | Op_settimer nsec => U64.range nsec
  | _ => True
  end.

(** Bounds on the numbers a call carries: microseconds of a sleep are a
    [useconds_t], seconds are at most [(2^64 - 1) / 10^9], and the
    sub-second fields are proper fractions of a second. *)
Definition call_in_range (c : host_call) : Prop :=
  match c with
  | Call_usleep usec => 0 <= usec < useconds_modulus
  | Call_setitimer _ it =>
      0 <= tvl_sec (itv_value it) <= 18446744073
      /\ 0 <= tv_usec (itv_value it) < 1000000
  | Call_timer_settime _ _ its =>
      0 <= tv_sec (its_value its) <= 18446744073
      /\ 0 <= tv_nsec (its_value its) < 1000000000
  | _ => True
  end.

(** ** Hosts and states used in the concrete runs *)

(** A host on which every call succeeds, whose two clocks read [mono] and
    [real], and whose [timer_create] hands out the handle [1]. *)
Definition quiet_host (mono real : timespec) : host :=
  {| clock_tp := fun clk =>
       match clk with CLOCK_MONOTONIC => mono | CLOCK_REALTIME => real end;
     clock_ret := fun _ => 0;
     usleep_ret := 0;
     timer_create_ret := 0;
     timer_create_id := 1;
     setitimer_ret := 0;
     timer_settime_ret := 0 |}.

(** A host whose [clock_gettime] fails with [-1], leaving in [tp] whatever
    the stack held ([junk]), while every other call succeeds. *)
Definition clockless_host (junk : timespec) : host :=
  {| clock_tp := fun _ => junk;
     clock_ret := fun _ => -1;
     usleep_ret := 0;
     timer_create_ret := 0;
     timer_create_id := 1;
     setitimer_ret := 0;
     timer_settime_ret := 0 |}.

(** A host out of timers: [timer_create] fails with [-1]. *)
Definition timerless_host (mono : timespec) : host :=
  {| clock_tp := fun _ => mono;
     clock_ret := fun _ => 0;
     usleep_ret := 0;
     timer_create_ret := -1;
     timer_create_id := 0;
     setitimer_ret := 0;
     timer_settime_ret := 0 |}.

Definition at_ns (sec nsec : Z) : timespec := {| tv_sec := sec; tv_nsec := nsec |}.

(** The state after an initialization at monotonic time [100 s]. *)
Definition started_state : sim_state := {| g_start := 100000000000; g_timer := 1 |}.

(** The value [14] that Linux and Darwin give to [SIGALRM]. *)
Definition SIGALRM_14 : Z := 14.

(** The state after an initialization made when the monotonic clock read
    zero: the epoch is [0]. *)
Definition booted_state : sim_state :=
  state_of (host_inittimer SIGALRM_14 Posix
              (quiet_host (at_ns 0 0) (at_ns 0 0)) initial_state).

(** A host whose monotonic clock reads [2^64 - 1000] nanoseconds. *)
Definition late_host : host :=
  quiet_host (at_ns 18446744073 709550616) (at_ns 0 0).

(** ** Conversions and call classes used by the further properties *)

(** The split of lines 159-160 of the file, [abs / 1000000000] and
    [abs % 1000000000], as a function of the nanosecond count. *)
Definition split_ns (x : Z) : timespec :=
  {| tv_sec := U64.div x 1000000000; tv_nsec := U64.rem x 1000000000 |}.

(** A [timespec] as a conforming clock returns it: seconds not negative,
    nanoseconds a proper fraction of a second, and the whole within 64 bits
    of nanoseconds. *)
Definition normalized (tp : timespec) : Prop :=
  0 <= tv_sec tp
  /\ 0 <= tv_nsec tp < 1000000000
  /\ timespec_total_ns tp < U64.modulus.

(** Chronological order on [timespec]s. *)
Definition timespec_le (a b : timespec) : Prop :=
  tv_sec a < tv_sec b \/ (tv_sec a = tv_sec b /\ tv_nsec a <= tv_nsec b).

Definition is_usleep (c : host_call) : bool :=
  match c with Call_usleep _ => true | _ => false end.

Definition is_clock_read (c : host_call) : bool :=
  match c with Call_clock_gettime _ => true | _ => false end.

(** Calls of the POSIX per-process timer interface, which Darwin lacks. *)
Definition is_posix_timer_call (c : host_call) : bool :=
  match c with
  | Call_timer_create _ _ | Call_timer_settime _ _ _ => true
  | _ => false
  end.

Definition is_setitimer (c : host_call) : bool :=
  match c with Call_setitimer _ _ => true | _ => false end.

(** The calls a build may not make: the POSIX timer interface on [Darwin],
    [setitimer] on [Posix]. *)
Definition foreign_call (p : platform) (c : host_call) : bool :=
  match p with
  | Darwin => is_posix_timer_call c
  | Posix => is_setitimer c
  end.

Definition is_settimer (o : op) : bool :=
  match o with Op_settimer _ => true | _ => false end.

Definition is_sleep_op (o : op) : bool :=
  match o with Op_sleep _ | Op_sleepuntil _ => true | _ => false end.

(** How many operations of a run satisfy [f]. *)
Definition count_ops (f : op -> bool) (os : list (op * host)) : nat :=
  length (filter (fun oh => f (fst oh)) os).

(** How many calls of a trace satisfy [f]. *)
Definition count_calls (f : host_call -> bool) (calls : list host_call) : nat :=
  length (filter f calls).

(** The host against which the last [host_inittimer] of a run was made. *)
Fixpoint last_init (os : list (op * host)) : option host :=
  match os with
  | [] => None
  | (o, h) :: rest =>
      match last_init rest with
      | Some h' => Some h'
      | None => if is_init o then Some h else None
      end
  end.

(** * Properties *)

(** Closed goals are settled by evaluation. *)
Ltac by_evaluation := vm_compute; solve [reflexivity | discriminate].
Ltac concrete_range := unfold wf_state, U64.range; split; by_evaluation.

(** ** Arithmetic modulo [2^64] *)

Lemma modulus_value : U64.modulus = 18446744073709551616.
Proof. reflexivity. Qed.

Lemma modulus_pos : 0 < U64.modulus.
Proof. rewrite modulus_value. lia. Qed.

Lemma wrap_range (x : Z) : U64.range (U64.wrap x).
Proof. unfold U64.range, U64.wrap. apply Z.mod_pos_bound, modulus_pos. Qed.

Lemma wrap_small (x : Z) : U64.range x -> U64.wrap x = x.
Proof. unfold U64.range, U64.wrap. intros Hx. now apply Z.mod_small. Qed.

Lemma wrap_idem (x : Z) : U64.wrap (U64.wrap x) = U64.wrap x.
Proof. apply wrap_small, wrap_range. Qed.

Lemma useconds_modulus_value : useconds_modulus = 4294967296.
Proof. reflexivity. Qed.

Lemma to_useconds_range (x : Z) : 0 <= to_useconds x < useconds_modulus.
Proof.
  unfold to_useconds. apply Z.mod_pos_bound. rewrite useconds_modulus_value. lia.
Qed.

(** A value that fits [useconds_t] passes unchanged. *)
Lemma to_useconds_small (x : Z) :
  0 <= x < useconds_modulus -> to_useconds x = x.
Proof. unfold to_useconds. intros Hx. now apply Z.mod_small. Qed.

(** A sum that overflows loses exactly one modulus. *)
Lemma add_overflow (a b : Z) :
  U64.range a -> U64.range b -> U64.modulus <= a + b ->
  U64.add a b = a + b - U64.modulus.
Proof.
  unfold U64.range, U64.add, U64.wrap. intros Ha Hb Hov.
  symmetry. apply Z.mod_unique with (q := 1); lia.
Qed.

(** A difference that underflows gains exactly one modulus. *)
Lemma sub_underflow (a b : Z) :
  U64.range a -> U64.range b -> a < b ->
  U64.sub a b = a - b + U64.modulus.
Proof.
  unfold U64.range, U64.sub, U64.wrap. intros Ha Hb Hlt.
  symmetry. apply Z.mod_unique with (q := -1); lia.
Qed.

Lemma sub_exact (a b : Z) :
  U64.range a -> 0 <= b <= a -> U64.sub a b = a - b.
Proof.
  unfold U64.range, U64.sub. intros Ha Hb. apply wrap_small. unfold U64.range. lia.
Qed.

(** The nanosecond count of a [timespec] is its mathematical value reduced
    modulo [2^64]: the intermediate reductions do not show. *)
Lemma timespec_ns_wrap (tp : timespec) :
  timespec_ns tp = U64.wrap (tv_sec tp * 1000000000 + tv_nsec tp).
Proof.
  unfold timespec_ns, U64.add, U64.mul, U64.wrap.
  pose proof modulus_pos as Hm.
  rewrite Z.add_mod_idemp_l, Z.add_mod_idemp_r by lia.
  rewrite <- Z.add_mod_idemp_l by lia.
  rewrite Z.mul_mod_idemp_r by lia.
  rewrite Z.add_mod_idemp_l by lia.
  f_equal. lia.
Qed.

Lemma timespec_ns_range (tp : timespec) : U64.range (timespec_ns tp).
Proof. rewrite timespec_ns_wrap. apply wrap_range. Qed.

Lemma timespec_ns_exact (tp : timespec) :
  U64.range (timespec_total_ns tp) -> timespec_ns tp = timespec_total_ns tp.
Proof. intros Hr. rewrite timespec_ns_wrap. now apply wrap_small. Qed.

(** Quotient and remainder put a nanosecond count back together. *)
Lemma split_seconds (x : Z) :
  timespec_total_ns {| tv_sec := U64.div x 1000000000;
                       tv_nsec := U64.rem x 1000000000 |} = x
  /\ 0 <= U64.rem x 1000000000 < 1000000000.
Proof.
  unfold timespec_total_ns, U64.div, U64.rem; simpl. split.
  - pose proof (Z.div_mod x 1000000000). lia.
  - apply Z.mod_pos_bound. lia.
Qed.

Lemma split_microseconds (u : Z) :
  timeval_total_ns {| tvl_sec := U64.div u 1000000;
                      tv_usec := U64.rem u 1000000 |} = u * 1000.
Proof.
  unfold timeval_total_ns, U64.div, U64.rem; simpl.
  pose proof (Z.div_mod u 1000000). lia.
Qed.

(** ** What each entry point does, as one equation *)

Lemma host_gettime_run (rtc : bool) (h : host) (st : sim_state) :
  host_gettime rtc h st =
  (if rtc then timespec_ns (clock_tp h CLOCK_REALTIME)
   else U64.sub (timespec_ns (clock_tp h CLOCK_MONOTONIC)) (g_start st),
   st,
   [Call_clock_gettime (if rtc then CLOCK_REALTIME else CLOCK_MONOTONIC)]).
Proof. destruct rtc; reflexivity. Qed.

Lemma host_sleep_run (nsec : Z) (h : host) (st : sim_state) :
  host_sleep nsec h st =
  (tt, st, [Call_usleep (to_useconds (U64.div (U64.add nsec 999) 1000))]).
Proof. reflexivity. Qed.

Lemma host_sleepuntil_run (nsec : Z) (h : host) (st : sim_state) :
  host_sleepuntil nsec h st =
  let now := U64.sub (host_now h) (g_start st) in
  (tt, st,
   Call_clock_gettime CLOCK_MONOTONIC ::
   (if U64.gtb nsec (U64.add now 1000)
    then [Call_usleep (to_useconds (U64.div (U64.sub nsec now) 1000))]
    else [])).
Proof.
  unfold host_sleepuntil, bind. rewrite host_gettime_run. cbv zeta.
  fold (host_now h).
  destruct (U64.gtb nsec (U64.add (U64.sub (host_now h) (g_start st)) 1000));
    reflexivity.
Qed.

Lemma host_settimer_run (p : platform) (nsec : Z) (h : host) (st : sim_state) :
  host_settimer p nsec h st =
  match p with
  | Darwin =>
      (setitimer_ret h, st,
       [Call_setitimer ITIMER_REAL
          {| itv_value :=
               {| tvl_sec := U64.div (U64.div nsec 1000) 1000000;
                  tv_usec := U64.rem (U64.div nsec 1000) 1000000 |};
             itv_interval := {| tvl_sec := 0; tv_usec := 0 |} |}])
  | Posix =>
      (timer_settime_ret h, st,
       [Call_timer_settime (g_timer st) TIMER_ABSTIME
          {| its_value :=
               {| tv_sec := U64.div (U64.add nsec (g_start st)) 1000000000;
                  tv_nsec := U64.rem (U64.add nsec (g_start st)) 1000000000 |};
             its_interval := {| tv_sec := 0; tv_nsec := 0 |} |}])
  end.
Proof. destruct p; reflexivity. Qed.

Lemma host_inittimer_run (SIGALRM : Z) (p : platform) (h : host) (st : sim_state) :
  host_inittimer SIGALRM p h st =
  let epoch := timespec_ns (clock_tp h CLOCK_MONOTONIC) in
  match p with
  | Darwin =>
      (0, {| g_start := epoch; g_timer := g_timer st |},
       [Call_clock_gettime CLOCK_MONOTONIC])
  | Posix =>
      (timer_create_ret h,
       {| g_start := epoch;
          g_timer := if timer_create_ret h =? 0 then timer_create_id h
                     else g_timer st |},
       [Call_clock_gettime CLOCK_MONOTONIC;
        Call_timer_create CLOCK_MONOTONIC
          {| sigev_notify := SIGEV_SIGNAL;
             sigev_signo := SIGALRM;
             sigev_value_ptr := NULL |}])
  end.
Proof.
  destruct p; [reflexivity|].
  unfold host_inittimer, bind, clock_gettime, write_g_start, timer_create.
  cbv zeta. cbn [g_start g_timer app].
  destruct (timer_create_ret h =? 0); reflexivity.
Qed.

Lemma host_timerirq_run (SIGALRM : Z) (h : host) (st : sim_state) :
  host_timerirq SIGALRM h st = (SIGALRM, st, []).
Proof. reflexivity. Qed.

(** ** The file-scope state *)

(** An operation other than [host_inittimer] returns the state it was
    given. *)
Lemma run_op_frame (SIGALRM : Z) (p : platform) (o : op) (h : host) (st : sim_state) :
  is_init o = false -> state_of (run_op SIGALRM p o h st) = st.
Proof.
  destruct o as [ | rtc | nsec | nsec | nsec | ]; intros Hinit;
    try discriminate Hinit; unfold run_op, bind.
  - rewrite host_gettime_run. reflexivity.
  - rewrite host_sleep_run. reflexivity.
  - rewrite host_sleepuntil_run. reflexivity.
  - rewrite host_settimer_run. destruct p; reflexivity.
  - reflexivity.
Qed.

(** So does a whole run that never calls [host_inittimer]. *)
Lemma run_ops_frame (SIGALRM : Z) (p : platform) (os : list (op * host)) :
  forall st : sim_state,
    no_init os = true -> state_of (run_ops SIGALRM p os st) = st.
Proof.
  induction os as [ | [o h] rest IH]; intros st Hno; [reflexivity|].
  simpl in Hno. apply andb_true_iff in Hno. destruct Hno as [Ho Hrest].
  apply negb_true_iff in Ho.
  pose proof (run_op_frame SIGALRM p o h st Ho) as Hstep.
  simpl. destruct (run_op SIGALRM p o h st) as [[r st1] t1].
  unfold state_of in Hstep; simpl in Hstep. subst st1.
  specialize (IH st Hrest).
  destruct (run_ops SIGALRM p rest st) as [[rs st2] t2].
  exact IH.
Qed.

(** [host_inittimer] stores the monotonic sample in [g_start], whatever the
    build and whatever the calls return, and the state it leaves is well
    formed. *)
Lemma host_inittimer_epoch (SIGALRM : Z) (p : platform) (h : host) (st : sim_state) :
  g_start (state_of (host_inittimer SIGALRM p h st)) = host_now h
  /\ wf_state (state_of (host_inittimer SIGALRM p h st)).
Proof.
  rewrite host_inittimer_run. unfold wf_state.
  destruct p; simpl; (split; [reflexivity | apply timespec_ns_range]).
Qed.

(** Well-formedness holds at start-up and is kept by every operation. *)
Lemma wf_initial_state : wf_state initial_state.
Proof. unfold wf_state, U64.range; simpl. rewrite modulus_value. lia. Qed.

Lemma run_op_wf (SIGALRM : Z) (p : platform) (o : op) (h : host) (st : sim_state) :
  wf_state st -> wf_state (state_of (run_op SIGALRM p o h st)).
Proof.
  intros Hwf. destruct (is_init o) eqn:Hinit.
  - destruct o; try discriminate. simpl. unfold bind.
    pose proof (host_inittimer_epoch SIGALRM p h st) as [_ Hw].
    destruct (host_inittimer SIGALRM p h st) as [[r st1] t1]. exact Hw.
  - rewrite run_op_frame by assumption. exact Hwf.
Qed.

(** C10: the epoch [g_start] is written by [host_inittimer] only: each of
    [host_gettime], [host_sleep], [host_sleepuntil], [host_settimer] and
    [host_timerirq] returns the state ([g_start] and [g_timer]) it was given,
    on both builds and whatever the host answers; hence any run of these
    operations ends in the state it started from. *)
Theorem state_written_only_by_inittimer
  (SIGALRM : Z) (p : platform) (h : host) (st : sim_state) :
  (forall rtc, state_of (host_gettime rtc h st) = st)
  /\ (forall nsec, state_of (host_sleep nsec h st) = st)
  /\ (forall nsec, state_of (host_sleepuntil nsec h st) = st)
  /\ (forall nsec, state_of (host_settimer p nsec h st) = st)
  /\ state_of (host_timerirq SIGALRM h st) = st
  /\ (forall os, no_init os = true ->
        state_of (run_ops SIGALRM p os st) = st)
  /\ g_start (state_of (host_inittimer SIGALRM p h st)) = host_now h.
Proof.
  repeat apply conj.
  - intros rtc. rewrite host_gettime_run. reflexivity.
  - intros nsec. rewrite host_sleep_run. reflexivity.
  - intros nsec. rewrite host_sleepuntil_run. reflexivity.
  - intros nsec. rewrite host_settimer_run. destruct p; reflexivity.
  - reflexivity.
  - intros os Hno. now apply run_ops_frame.
  - apply host_inittimer_epoch.
Qed.

(** ** The interrupt number *)

(** C8: [host_timerirq] returns [SIGALRM] and nothing else happens: no host
    call is made and the state is returned as given.  Two calls return the
    same value whatever the host and the state at each, in particular after
    any run of other operations; and the value is the signal number that
    [host_inittimer] hands to [timer_create]. *)
Theorem host_timerirq_constant
  (SIGALRM : Z) (p : platform) (h1 h2 : host) (st1 st2 : sim_state)
  (os : list (op * host)) :
  host_timerirq SIGALRM h1 st1 = (SIGALRM, st1, [])
  /\ result_of (host_timerirq SIGALRM h1 st1)
     = result_of (host_timerirq SIGALRM h2 st2)
  /\ result_of (host_timerirq SIGALRM h2
                  (state_of (run_ops SIGALRM p os st1))) = SIGALRM
  /\ In (Call_timer_create CLOCK_MONOTONIC
           {| sigev_notify := SIGEV_SIGNAL;
              sigev_signo := result_of (host_timerirq SIGALRM h1 st1);
              sigev_value_ptr := NULL |})
        (calls_of (host_inittimer SIGALRM Posix h2 st2)).
Proof.
  repeat apply conj.
  - reflexivity.
  - reflexivity.
  - reflexivity.
  - rewrite host_inittimer_run. simpl. right. left. reflexivity.
Qed.

(** ** Reading the clocks *)

(** C4: [host_gettime true] samples [CLOCK_REALTIME] and returns
    [tv_sec * 10^9 + tv_nsec] as a 64-bit value, which is that number itself
    whenever it fits in 64 bits; [host_gettime false] samples
    [CLOCK_MONOTONIC] and returns the sample minus [g_start] as a 64-bit
    value, and when the sample is at or after the epoch the subtraction does
    not wrap: the result is the non-negative difference itself. *)
Theorem host_gettime_value (h : host) (st : sim_state) :
  calls_of (host_gettime true h st) = [Call_clock_gettime CLOCK_REALTIME]
  /\ result_of (host_gettime true h st)
     = U64.wrap (tv_sec (clock_tp h CLOCK_REALTIME) * 1000000000
                 + tv_nsec (clock_tp h CLOCK_REALTIME))
  /\ (U64.range (tv_sec (clock_tp h CLOCK_REALTIME) * 1000000000
                 + tv_nsec (clock_tp h CLOCK_REALTIME)) ->
      result_of (host_gettime true h st)
      = tv_sec (clock_tp h CLOCK_REALTIME) * 1000000000
        + tv_nsec (clock_tp h CLOCK_REALTIME))
  /\ calls_of (host_gettime false h st) = [Call_clock_gettime CLOCK_MONOTONIC]
  /\ result_of (host_gettime false h st)
     = U64.wrap (timespec_ns (clock_tp h CLOCK_MONOTONIC) - g_start st)
  /\ (wf_state st -> g_start st <= timespec_ns (clock_tp h CLOCK_MONOTONIC) ->
      result_of (host_gettime false h st)
      = timespec_ns (clock_tp h CLOCK_MONOTONIC) - g_start st
      /\ 0 <= result_of (host_gettime false h st)).
Proof.
  rewrite !host_gettime_run. unfold result_of, calls_of; simpl.
  repeat apply conj.
  - reflexivity.
  - apply timespec_ns_wrap.
  - intros Hfit. now apply timespec_ns_exact.
  - reflexivity.
  - reflexivity.
  - intros Hwf Hepoch. unfold wf_state, U64.range in Hwf.
    rewrite sub_exact; [lia | apply timespec_ns_range | lia].
Qed.

(** C7: two monotonic reads, the second made after the first and after any
    operations other than [host_inittimer] in between, with the first sample
    at or after the epoch and the second sample at or after the first: the
    second read returns at least what the first returned. *)
Theorem monotonic_reads_never_decrease
  (SIGALRM : Z) (p : platform) (h1 h2 : host) (st : sim_state)
  (between : list (op * host)) :
  wf_state st ->
  no_init between = true ->
  g_start st <= host_now h1 ->
  host_now h1 <= host_now h2 ->
  result_of (host_gettime false h1 st)
  <= result_of (host_gettime false h2
       (state_of (run_ops SIGALRM p between
          (state_of (host_gettime false h1 st))))).
Proof.
  intros Hwf Hno Hepoch Hlater.
  rewrite (host_gettime_run false h1 st). unfold state_of at 2; simpl.
  rewrite run_ops_frame by assumption.
  rewrite host_gettime_run. unfold result_of; simpl.
  fold (host_now h1) (host_now h2).
  pose proof (timespec_ns_range (clock_tp h1 CLOCK_MONOTONIC)) as R1.
  pose proof (timespec_ns_range (clock_tp h2 CLOCK_MONOTONIC)) as R2.
  fold (host_now h1) in R1. fold (host_now h2) in R2.
  unfold wf_state, U64.range in Hwf.
  rewrite !sub_exact by (unfold U64.range in *; lia).
  lia.
Qed.

(** ** Sleeping *)

Lemma ceil_div_1000 (d : Z) :
  ceil_div d 1000 = (d + 999) / 1000
  /\ d <= 1000 * ceil_div d 1000 < d + 1000.
Proof.
  unfold ceil_div.
  pose proof (Z.div_mod (- d) 1000) as E1.
  pose proof (Z.mod_pos_bound (- d) 1000) as B1.
  pose proof (Z.div_mod (d + 999) 1000) as E2.
  pose proof (Z.mod_pos_bound (d + 999) 1000) as B2.
  lia.
Qed.

(** C2, as the code has it: for every duration [d] of at most
    [4294967295000 ns], that is with [ceiling (d / 1000)] below [2^32],
    [host_sleep d] makes one call, [usleep (ceiling (d / 1000))], the 64-bit
    quotient [(d + 999) / 1000] being that ceiling and passing into
    [useconds_t] unchanged; the microseconds requested, taken back to
    nanoseconds, are at least [d] and less than [d + 1000]. *)
Theorem host_sleep_rounds_up (h : host) (st : sim_state) (d : Z) :
  0 <= d -> d <= 4294967295000 ->
  host_sleep d h st = (tt, st, [Call_usleep (ceil_div d 1000)])
  /\ ceil_div d 1000 = U64.div (U64.add d 999) 1000
  /\ d <= 1000 * ceil_div d 1000 < d + 1000.
Proof.
  intros Hd Hfit. rewrite host_sleep_run.
  destruct (ceil_div_1000 d) as [Hq Hb].
  assert (Hadd : U64.add d 999 = d + 999).
  { unfold U64.add. apply wrap_small. unfold U64.range.
    rewrite modulus_value. lia. }
  rewrite Hadd. unfold U64.div. rewrite <- Hq.
  rewrite to_useconds_small by (rewrite useconds_modulus_value; lia).
  repeat apply conj; try reflexivity; lia.
Qed.

(** Beyond that bound the request falls short of the duration: a
    [useconds_t] holds less than [2^32] microseconds. *)
Lemma host_sleep_short_beyond_useconds (h : host) (st : sim_state) (d : Z) :
  4294967295000 < d ->
  exists usec : Z,
    host_sleep d h st = (tt, st, [Call_usleep usec]) /\ 1000 * usec < d.
Proof.
  intros Hd. rewrite host_sleep_run. eexists. split; [reflexivity|].
  pose proof (to_useconds_range (U64.div (U64.add d 999) 1000)) as Hr.
  rewrite useconds_modulus_value in Hr. lia.
Qed.

(** For the last [999] durations of the type the sum [d + 999] overflows
    and no delay at all is asked for. *)
Lemma host_sleep_overflow (h : host) (st : sim_state) (d : Z) :
  U64.range d -> U64.modulus <= d + 999 ->
  host_sleep d h st = (tt, st, [Call_usleep 0]).
Proof.
  intros Hd Hov. rewrite host_sleep_run.
  rewrite add_overflow; [ | assumption | | assumption].
  - unfold U64.div, U64.range in *. rewrite Z.div_small; [reflexivity | lia].
  - unfold U64.range. rewrite modulus_value. lia.
Qed.

Lemma elapsed_eq (h : host) (st : sim_state) :
  elapsed h st = U64.sub (host_now h) (g_start st).
Proof. unfold elapsed. rewrite host_gettime_run. reflexivity. Qed.

Lemma elapsed_range (h : host) (st : sim_state) : U64.range (elapsed h st).
Proof. rewrite elapsed_eq. apply wrap_range. Qed.

(** The guard of [host_sleepuntil] when [now + 1000] does not overflow. *)
Lemma guard_exact (d now : Z) :
  U64.range now -> now + 1000 < U64.modulus ->
  U64.gtb d (U64.add now 1000) = (now + 1000 <? d).
Proof.
  intros Hnow Hfit. unfold U64.gtb, U64.add.
  rewrite wrap_small; [reflexivity | unfold U64.range in *; lia].
Qed.

(** The same guard when [now + 1000] overflows: the threshold drops by
    [2^64]. *)
Lemma guard_overflow (d now : Z) :
  U64.range now -> U64.modulus <= now + 1000 ->
  U64.gtb d (U64.add now 1000) = (now + 1000 - U64.modulus <? d).
Proof.
  intros Hnow Hov. unfold U64.gtb.
  rewrite add_overflow; [reflexivity | assumption | | assumption].
  unfold U64.range. rewrite modulus_value. lia.
Qed.

(** C5, as the code has it: when the elapsed time [now] that
    [host_sleepuntil] reads satisfies [now + 1000 < 2^64], a deadline
    [d > now + 1000] makes it call [usleep] exactly once, with the whole
    microseconds of [d - now] reduced modulo [2^32] on their way into
    [useconds_t], which are those microseconds themselves when [d - now] is
    below [4294967296000 ns]; any other deadline, in particular every
    [d <= now], makes it return after the clock read with no sleep
    requested. *)
Theorem host_sleepuntil_guard (h : host) (st : sim_state) (d : Z) :
  U64.range d ->
  elapsed h st + 1000 < U64.modulus ->
  (elapsed h st + 1000 < d ->
     calls_of (host_sleepuntil d h st)
     = [Call_clock_gettime CLOCK_MONOTONIC;
        Call_usleep (((d - elapsed h st) / 1000) mod 2 ^ 32)])
  /\ (elapsed h st + 1000 < d -> d - elapsed h st < 4294967296000 ->
        calls_of (host_sleepuntil d h st)
        = [Call_clock_gettime CLOCK_MONOTONIC;
           Call_usleep ((d - elapsed h st) / 1000)])
  /\ (d <= elapsed h st + 1000 ->
        calls_of (host_sleepuntil d h st) = [Call_clock_gettime CLOCK_MONOTONIC])
  /\ (d <= elapsed h st ->
        calls_of (host_sleepuntil d h st) = [Call_clock_gettime CLOCK_MONOTONIC]).
Proof.
  intros Hd Hfit.
  pose proof (elapsed_range h st) as Hnow.
  rewrite host_sleepuntil_run. cbv zeta. rewrite <- elapsed_eq.
  rewrite guard_exact by assumption.
  unfold calls_of; cbn [snd].
  split; [ | split; [ | split]].
  - intros Hcmp.
    assert (Hlt : (elapsed h st + 1000 <? d) = true) by (apply Z.ltb_lt; lia).
    rewrite Hlt. unfold U64.div.
    rewrite sub_exact by (unfold U64.range in *; lia). reflexivity.
  - intros Hcmp Hshort.
    assert (Hlt : (elapsed h st + 1000 <? d) = true) by (apply Z.ltb_lt; lia).
    rewrite Hlt. unfold U64.div.
    rewrite sub_exact by (unfold U64.range in *; lia).
    rewrite to_useconds_small; [reflexivity|].
    rewrite useconds_modulus_value.
    pose proof (Z.div_mod (d - elapsed h st) 1000) as E.
    pose proof (Z.mod_pos_bound (d - elapsed h st) 1000) as B. lia.
  - intros Hcmp.
    assert (Hlt : (elapsed h st + 1000 <? d) = false) by (apply Z.ltb_ge; lia).
    rewrite Hlt. reflexivity.
  - intros Hcmp.
    assert (Hlt : (elapsed h st + 1000 <? d) = false) by (apply Z.ltb_ge; lia).
    rewrite Hlt. reflexivity.
Qed.

(** C9, as the code has it: when the elapsed time [now] that
    [host_sleepuntil] reads satisfies [now + 1000 < 2^64], every [usleep] it
    issues is issued under [d > now + 1000]: the 64-bit subtraction [d - now]
    did not wrap and the quotient [(d - now) / 1000] is at least [1]; the
    argument [usleep] receives is that quotient modulo [2^32], which is the
    quotient itself, hence at least [1], when [d - now] is below
    [4294967296000 ns]. *)
Theorem host_sleepuntil_sleep_positive
  (h : host) (st : sim_state) (d usec : Z) :
  U64.range d ->
  elapsed h st + 1000 < U64.modulus ->
  In (Call_usleep usec) (calls_of (host_sleepuntil d h st)) ->
  elapsed h st + 1000 < d
  /\ U64.sub d (elapsed h st) = d - elapsed h st
  /\ 1 <= (d - elapsed h st) / 1000
  /\ usec = ((d - elapsed h st) / 1000) mod 2 ^ 32
  /\ (d - elapsed h st < 4294967296000 ->
      usec = (d - elapsed h st) / 1000 /\ 1 <= usec).
Proof.
  intros Hd Hfit Hin.
  pose proof (elapsed_range h st) as Hnow.
  rewrite host_sleepuntil_run in Hin. cbv zeta in Hin.
  rewrite <- elapsed_eq in Hin. rewrite guard_exact in Hin by assumption.
  unfold calls_of in Hin; cbn [snd] in Hin.
  destruct Hin as [Hbad | Hin]; [discriminate Hbad|].
  destruct (elapsed h st + 1000 <? d) eqn:Hlt; [|contradiction].
  apply Z.ltb_lt in Hlt.
  assert (Hsub : U64.sub d (elapsed h st) = d - elapsed h st)
    by (apply sub_exact; unfold U64.range in *; lia).
  destruct Hin as [Heq | []].
  injection Heq as Heq. rewrite Hsub in Heq. unfold U64.div in Heq.
  assert (Hq : 1 <= (d - elapsed h st) / 1000)
    by (apply Z.div_le_lower_bound; lia).
  split; [exact Hlt|]. split; [exact Hsub|]. split; [exact Hq|].
  split; [symmetry; exact Heq|].
  intros Hshort.
  rewrite to_useconds_small in Heq.
  - subst usec. split; [reflexivity | exact Hq].
  - rewrite useconds_modulus_value.
    pose proof (Z.div_mod (d - elapsed h st) 1000) as E.
    pose proof (Z.mod_pos_bound (d - elapsed h st) 1000) as B. lia.
Qed.

(** ** Initialization *)

(** C3, as the code has it: [host_inittimer] returns what [timer_create]
    returned on the [Posix] build and [0] on the [Darwin] build; the value
    that [clock_gettime] returned has no part in the result.  Each
    underlying call is made exactly once: nothing is retried. *)
Theorem host_inittimer_result
  (SIGALRM : Z) (p : platform) (h : host) (st : sim_state) :
  result_of (host_inittimer SIGALRM p h st)
  = match p with Darwin => 0 | Posix => timer_create_ret h end
  /\ calls_of (host_inittimer SIGALRM p h st)
     = Call_clock_gettime CLOCK_MONOTONIC ::
       match p with
       | Darwin => []
       | Posix => [Call_timer_create CLOCK_MONOTONIC
                     {| sigev_notify := SIGEV_SIGNAL;
                        sigev_signo := SIGALRM;
                        sigev_value_ptr := NULL |}]
       end
  /\ (forall h' st',
        timer_create_ret h' = timer_create_ret h ->
        result_of (host_inittimer SIGALRM p h' st')
        = result_of (host_inittimer SIGALRM p h st)).
Proof.
  repeat apply conj.
  - rewrite host_inittimer_run. destruct p; reflexivity.
  - rewrite host_inittimer_run. destruct p; reflexivity.
  - intros h' st' Hsame. rewrite !host_inittimer_run.
    destruct p; unfold result_of; simpl; [reflexivity | exact Hsame].
Qed.

(** ** Arming the timer *)

(** C6: on the [Posix] build [host_settimer d] makes one call,
    [timer_settime (g_timer, TIMER_ABSTIME, ...)], whose expiry time is the
    64-bit sum [d + g_start] split into its quotient and its remainder by
    [10^9] (so seconds and nanoseconds add up to that sum again, with the
    nanoseconds below [10^9]), the sum being [d + g_start] itself whenever
    that fits in 64 bits; the repeat interval is zero, and the value of
    [timer_settime] is returned. *)
Theorem host_settimer_posix_absolute (h : host) (st : sim_state) (d : Z) :
  exists its : itimerspec,
    host_settimer Posix d h st
    = (timer_settime_ret h, st,
       [Call_timer_settime (g_timer st) TIMER_ABSTIME its])
    /\ tv_sec (its_value its) = U64.add d (g_start st) / 1000000000
    /\ tv_nsec (its_value its) = U64.add d (g_start st) mod 1000000000
    /\ timespec_total_ns (its_value its) = U64.add d (g_start st)
    /\ 0 <= tv_nsec (its_value its) < 1000000000
    /\ (U64.range (d + g_start st) ->
        timespec_total_ns (its_value its) = d + g_start st)
    /\ its_interval its = {| tv_sec := 0; tv_nsec := 0 |}
    /\ repeat_interval_ns
         (Call_timer_settime (g_timer st) TIMER_ABSTIME its) = Some 0.
Proof.
  rewrite host_settimer_run.
  destruct (split_seconds (U64.add d (g_start st))) as [Hsum Hns].
  eexists. split; [reflexivity|]. cbn [its_value its_interval].
  repeat apply conj.
  - reflexivity.
  - reflexivity.
  - exact Hsum.
  - apply Hns.
  - apply Hns.
  - intros Hfit. rewrite Hsum. unfold U64.add. now apply wrap_small.
  - reflexivity.
  - reflexivity.
Qed.

(** On the [Posix] build a timer armed with success expires at the
    deadline, or at once when the deadline has passed. *)
Lemma posix_expiry (h : host) (st : sim_state) (d : Z) :
  timer_settime_ret h = 0 ->
  0 < d + g_start st < U64.modulus ->
  virtual_expiry h st (calls_of (host_settimer Posix d h st))
  = Some (Z.max (virtual_now h st) d).
Proof.
  intros Hret Hfit. rewrite host_settimer_run.
  unfold virtual_expiry, calls_of.
  cbn [snd last_arming is_arming arming_ret]. rewrite Hret.
  unfold host_expiry. cbn [Z.eqb negb its_value].
  destruct (split_seconds (U64.add d (g_start st))) as [Hsum _].
  rewrite Hsum.
  assert (Hadd : U64.add d (g_start st) = d + g_start st)
    by (unfold U64.add; apply wrap_small; unfold U64.range; lia).
  rewrite Hadd.
  destruct (Z.eqb_spec (d + g_start st) 0) as [Hz | _]; [lia|].
  cbn [option_map]. unfold virtual_now. f_equal. lia.
Qed.

(** On the [Darwin] build a timer armed with success expires a whole number
    of microseconds after the call, that number being [d / 1000]: the
    deadline is taken for an interval, and neither the clock nor the epoch is
    consulted. *)
Lemma darwin_expiry (h : host) (st : sim_state) (d : Z) :
  setitimer_ret h = 0 ->
  1000 <= d ->
  virtual_expiry h st (calls_of (host_settimer Darwin d h st))
  = Some (virtual_now h st + d / 1000 * 1000).
Proof.
  intros Hret Hd. rewrite host_settimer_run.
  unfold virtual_expiry, calls_of.
  cbn [snd last_arming is_arming arming_ret]. rewrite Hret.
  unfold host_expiry. cbn [Z.eqb negb itv_value].
  rewrite split_microseconds. unfold U64.div.
  assert (Hq : 1 <= d / 1000) by (apply Z.div_le_lower_bound; lia).
  destruct (Z.eqb_spec (d / 1000 * 1000) 0) as [Hz | _]; [lia|].
  cbn [option_map]. unfold virtual_now. f_equal. lia.
Qed.

Lemma darwin_ignores_clock_and_epoch (h h' : host) (st st' : sim_state) (d : Z) :
  calls_of (host_settimer Darwin d h st) = calls_of (host_settimer Darwin d h' st').
Proof. rewrite !host_settimer_run. reflexivity. Qed.

(** For a deadline not yet passed, the two builds arm the same expiry only
    when the call is made less than a microsecond after the epoch. *)
Lemma builds_agree_iff (h : host) (st : sim_state) (d : Z) :
  setitimer_ret h = 0 -> timer_settime_ret h = 0 ->
  1000 <= d -> 0 < d + g_start st < U64.modulus ->
  virtual_now h st <= d ->
  virtual_expiry h st (calls_of (host_settimer Darwin d h st))
  = virtual_expiry h st (calls_of (host_settimer Posix d h st))
  <-> virtual_now h st = d mod 1000.
Proof.
  intros Hr1 Hr2 Hd Hfit Hfuture.
  rewrite darwin_expiry, posix_expiry by assumption.
  pose proof (Z.div_mod d 1000) as E.
  split.
  - intros Heq. injection Heq as Heq. lia.
  - intros Hnow. f_equal. lia.
Qed.

(** The strategy in the specification's words arms an expiry less than a
    microsecond before the deadline. *)
Lemma spec_relative_expiry (h : host) (st : sim_state) (d : Z) :
  setitimer_ret h = 0 ->
  wf_state st -> g_start st <= host_now h -> U64.range d ->
  virtual_now h st + 1000 <= d ->
  virtual_expiry h st (calls_of (spec_settimer_relative d h st))
  = Some (d - (d - virtual_now h st) mod 1000).
Proof.
  intros Hret Hwf Hepoch Hd Hfuture.
  unfold spec_settimer_relative, bind. rewrite host_gettime_run. cbv zeta.
  fold (host_now h).
  pose proof (timespec_ns_range (clock_tp h CLOCK_MONOTONIC)) as Hs.
  fold (host_now h) in Hs. unfold wf_state in Hwf. unfold virtual_now in *.
  rewrite (sub_exact (host_now h)) by (unfold U64.range in *; lia).
  rewrite sub_exact by (unfold U64.range in *; lia).
  unfold virtual_expiry, calls_of, setitimer.
  cbn [snd app last_arming is_arming arming_ret]. rewrite Hret.
  unfold host_expiry. cbn [Z.eqb negb itv_value].
  rewrite split_microseconds. unfold U64.div.
  set (off := d - (host_now h - g_start st)) in *.
  assert (Hq : 1 <= off / 1000) by (apply Z.div_le_lower_bound; lia).
  destruct (Z.eqb_spec (off / 1000 * 1000) 0) as [Hz | _]; [lia|].
  pose proof (Z.div_mod off 1000) as E.
  cbn [option_map]. f_equal. lia.
Qed.

(** C1, on the code: a [Darwin] build arming the deadline [5 s] two seconds
    after the epoch asks [setitimer] for an interval of five seconds, so the
    timer expires at [7 s] of the virtual timeline, while the [Posix] build,
    and the relative strategy as the specification words it, expire at the
    deadline, [5 s]. *)
Theorem darwin_settimer_misses_deadline :
  virtual_now (quiet_host (at_ns 102 0) (at_ns 0 0)) started_state = 2000000000
  /\ calls_of (host_settimer Darwin 5000000000
                 (quiet_host (at_ns 102 0) (at_ns 0 0)) started_state)
     = [Call_setitimer ITIMER_REAL
          {| itv_value := {| tvl_sec := 5; tv_usec := 0 |};
             itv_interval := {| tvl_sec := 0; tv_usec := 0 |} |}]
  /\ virtual_expiry (quiet_host (at_ns 102 0) (at_ns 0 0)) started_state
       (calls_of (host_settimer Darwin 5000000000
                    (quiet_host (at_ns 102 0) (at_ns 0 0)) started_state))
     = Some 7000000000
  /\ virtual_expiry (quiet_host (at_ns 102 0) (at_ns 0 0)) started_state
       (calls_of (host_settimer Posix 5000000000
                    (quiet_host (at_ns 102 0) (at_ns 0 0)) started_state))
     = Some 5000000000
  /\ virtual_expiry (quiet_host (at_ns 102 0) (at_ns 0 0)) started_state
       (calls_of (spec_settimer_relative 5000000000
                    (quiet_host (at_ns 102 0) (at_ns 0 0)) started_state))
     = Some 5000000000.
Proof. repeat apply conj; by_evaluation. Qed.

(** ** Ranges *)

(** Quotients of a [uint64_t] by the unit conversions of the file. *)
Lemma quotient_bounds (x : Z) :
  U64.range x ->
  0 <= U64.div x 1000 <= 18446744073709551
  /\ 0 <= U64.div x 1000000000 <= 18446744073
  /\ 0 <= U64.div (U64.div x 1000) 1000000 <= 18446744073
  /\ 0 <= U64.rem (U64.div x 1000) 1000000 < 1000000.
Proof.
  unfold U64.range, U64.div, U64.rem. rewrite modulus_value. intros Hx.
  pose proof (Z.div_mod x 1000) as E1.
  pose proof (Z.mod_pos_bound x 1000) as B1.
  pose proof (Z.div_mod x 1000000000) as E2.
  pose proof (Z.mod_pos_bound x 1000000000) as B2.
  pose proof (Z.div_mod (x / 1000) 1000000) as E3.
  pose proof (Z.mod_pos_bound (x / 1000) 1000000) as B3.
  lia.
Qed.

(** Every number an operation hands to the host is within the bounds of
    [call_in_range]: seconds fit a 64-bit [time_t], the sub-second fields fit
    32 bits, and the microseconds of a sleep are a [useconds_t]. *)
Lemma run_op_calls_in_range
  (SIGALRM : Z) (p : platform) (o : op) (h : host) (st : sim_state) :
  op_arg_range o ->
  Forall call_in_range (calls_of (run_op SIGALRM p o h st)).
Proof.
  destruct o as [ | rtc | nsec | nsec | nsec | ]; intros Harg;
    unfold run_op, bind.
  - rewrite host_inittimer_run.
    destruct p; unfold calls_of; simpl; repeat constructor.
  - rewrite host_gettime_run. unfold calls_of; simpl. repeat constructor.
  - rewrite host_sleep_run. unfold calls_of; cbn [snd].
    apply Forall_cons; [ | apply Forall_nil].
    apply to_useconds_range.
  - rewrite host_sleepuntil_run. cbv zeta. unfold calls_of; cbn [snd].
    set (now := U64.sub (host_now h) (g_start st)).
    apply Forall_cons; [exact I|].
    destruct (U64.gtb nsec (U64.add now 1000)); [ | apply Forall_nil].
    apply Forall_cons; [ | apply Forall_nil].
    apply to_useconds_range.
  - rewrite host_settimer_run.
    pose proof (wrap_range (nsec + g_start st)) as Hw.
    destruct p; unfold calls_of, U64.add; simpl;
      (apply Forall_cons; [ | apply Forall_nil]); simpl.
    + destruct (quotient_bounds nsec Harg) as (Hus & _ & Hsec & Husec).
      auto.
    + destruct (quotient_bounds _ Hw) as (_ & Hs & _ & _).
      split; [exact Hs|]. apply Z.mod_pos_bound. lia.
  - unfold calls_of; simpl. apply Forall_nil.
Qed.

(** * Concrete runs *)

(** C2: [host_sleep 1500] asks for two microseconds. *)
Lemma host_sleep_rounds_up_witness :
  0 <= 1500
  /\ 1500 <= 4294967295000
  /\ host_sleep 1500 (quiet_host (at_ns 102 0) (at_ns 0 0)) started_state
     = (tt, started_state, [Call_usleep 2])
  /\ 1500 <= 1000 * 2 < 1500 + 1000.
Proof.
  assert (H0 : 0 <= 1500) by lia.
  assert (H1 : 1500 <= 4294967295000) by lia.
  pose proof (host_sleep_rounds_up
                (quiet_host (at_ns 102 0) (at_ns 0 0)) started_state 1500 H0 H1)
    as (Hrun & _ & Hbound).
  split; [exact H0|]. split; [exact H1|]. split; [exact Hrun | exact Hbound].
Defined.

(** C2 fails from [d = 4294967295001 ns] on: the ceiling of [d / 1000]
    reaches [2^32], which a [useconds_t] does not hold, so for a duration of
    [4294967296000 ns] (about 71.6 minutes), as for [4294967295001 ns],
    [host_sleep] asks for zero microseconds, with no overflow of [d + 999];
    at [d = 2^64 - 1] the sum [d + 999] itself wraps, to the same effect. *)
Lemma host_sleep_rounds_down_past_useconds :
  exists d usec : Z,
    d = 4294967296000
    /\ U64.range d
    /\ d + 999 < U64.modulus
    /\ host_sleep d (quiet_host (at_ns 102 0) (at_ns 0 0)) started_state
       = (tt, started_state, [Call_usleep usec])
    /\ usec = 0
    /\ ceil_div d 1000 = 4294967296
    /\ 1000 * usec < d
    /\ host_sleep 4294967295001
         (quiet_host (at_ns 102 0) (at_ns 0 0)) started_state
       = (tt, started_state, [Call_usleep 0])
    /\ host_sleep 18446744073709551615
         (quiet_host (at_ns 102 0) (at_ns 0 0)) started_state
       = (tt, started_state, [Call_usleep 0]).
Proof.
  exists 4294967296000, 0. split; [reflexivity|]. unfold U64.range.
  repeat apply conj; by_evaluation.
Qed.

(** C3 fails on a host whose [clock_gettime] returns [-1]: both builds
    return [0] all the same, having stored in [g_start] whatever [tp]
    held. *)
Lemma host_inittimer_swallows_clock_failure :
  clock_ret (clockless_host (at_ns 7 7)) CLOCK_MONOTONIC = -1
  /\ host_inittimer SIGALRM_14 Posix (clockless_host (at_ns 7 7)) initial_state
     = (0, {| g_start := 7000000007; g_timer := 1 |},
        [Call_clock_gettime CLOCK_MONOTONIC;
         Call_timer_create CLOCK_MONOTONIC
           {| sigev_notify := SIGEV_SIGNAL;
              sigev_signo := 14;
              sigev_value_ptr := NULL |}])
  /\ host_inittimer SIGALRM_14 Darwin (clockless_host (at_ns 7 7)) initial_state
     = (0, {| g_start := 7000000007; g_timer := 0 |},
        [Call_clock_gettime CLOCK_MONOTONIC]).
Proof. repeat apply conj; by_evaluation. Qed.

(** C3: a [Posix] host out of timers makes [host_inittimer] return the
    [-1] of [timer_create]. *)
Lemma host_inittimer_result_witness :
  result_of (host_inittimer SIGALRM_14 Posix (timerless_host (at_ns 7 7)) initial_state)
  = -1
  /\ result_of (host_inittimer SIGALRM_14 Darwin (timerless_host (at_ns 7 7)) initial_state)
     = 0.
Proof.
  split.
  - exact (proj1 (host_inittimer_result SIGALRM_14 Posix
                    (timerless_host (at_ns 7 7)) initial_state)).
  - exact (proj1 (host_inittimer_result SIGALRM_14 Darwin
                    (timerless_host (at_ns 7 7)) initial_state)).
Defined.

(** C4: with the epoch at [100 s], a monotonic clock at [102.000000007 s]
    and a wall clock at [1700000000.000000005 s]. *)
Lemma host_gettime_value_witness :
  result_of (host_gettime true
               (quiet_host (at_ns 102 7) (at_ns 1700000000 5)) started_state)
  = 1700000000000000005
  /\ wf_state started_state
  /\ g_start started_state
     <= timespec_ns (clock_tp (quiet_host (at_ns 102 7) (at_ns 1700000000 5))
                       CLOCK_MONOTONIC)
  /\ result_of (host_gettime false
                  (quiet_host (at_ns 102 7) (at_ns 1700000000 5)) started_state)
     = 2000000007.
Proof.
  pose proof (host_gettime_value
                (quiet_host (at_ns 102 7) (at_ns 1700000000 5)) started_state)
    as (_ & _ & Hreal & _ & _ & Hmono).
  assert (Hfit : U64.range (1700000000 * 1000000000 + 5))
    by concrete_range.
  assert (Hwf : wf_state started_state)
    by concrete_range.
  assert (Hepoch : g_start started_state
                   <= timespec_ns (clock_tp (quiet_host (at_ns 102 7)
                                               (at_ns 1700000000 5))
                                     CLOCK_MONOTONIC))
    by by_evaluation.
  split; [exact (Hreal Hfit)|]. split; [exact Hwf|]. split; [exact Hepoch|].
  exact (proj1 (Hmono Hwf Hepoch)).
Defined.

(** C5: two seconds after the epoch, a deadline [50 ms] ahead is slept
    for, [50000] microseconds. *)
Lemma host_sleepuntil_guard_witness :
  U64.range 2050000000
  /\ elapsed (quiet_host (at_ns 102 0) (at_ns 0 0)) started_state + 1000
     < U64.modulus
  /\ elapsed (quiet_host (at_ns 102 0) (at_ns 0 0)) started_state + 1000
     < 2050000000
  /\ 2050000000 - elapsed (quiet_host (at_ns 102 0) (at_ns 0 0)) started_state
     < 4294967296000
  /\ calls_of (host_sleepuntil 2050000000
                 (quiet_host (at_ns 102 0) (at_ns 0 0)) started_state)
     = [Call_clock_gettime CLOCK_MONOTONIC; Call_usleep 50000].
Proof.
  assert (Hd : U64.range 2050000000) by concrete_range.
  assert (Hfit : elapsed (quiet_host (at_ns 102 0) (at_ns 0 0)) started_state + 1000
                 < U64.modulus) by by_evaluation.
  assert (Hahead : elapsed (quiet_host (at_ns 102 0) (at_ns 0 0)) started_state + 1000
                   < 2050000000) by by_evaluation.
  assert (Hshort : 2050000000
                   - elapsed (quiet_host (at_ns 102 0) (at_ns 0 0)) started_state
                   < 4294967296000) by by_evaluation.
  split; [exact Hd|]. split; [exact Hfit|]. split; [exact Hahead|].
  split; [exact Hshort|].
  exact (proj1 (proj2 (host_sleepuntil_guard
                         (quiet_host (at_ns 102 0) (at_ns 0 0)) started_state
                         2050000000 Hd Hfit)) Hahead Hshort).
Defined.

(** C5 fails two seconds after the epoch for a deadline [2^32] microseconds
    (about 71.6 minutes) ahead: the guard holds and the quotient
    [(d - now) / 1000] is [4294967296], which [useconds_t] reduces to [0], so
    the one sleep issued is not for the difference.  It fails, too, when the
    elapsed time is [2^64 - 1000] (the epoch being [0] and the monotonic
    clock reading [18446744073 s + 709550616 ns]): [now + 1000] wraps to
    [0], the guard holds for a deadline equal to [now], and a sleep is issued
    although the deadline is not in the future. *)
Lemma host_sleepuntil_sleep_not_the_difference :
  exists d : Z,
    d = 4296967296000
    /\ U64.range d
    /\ elapsed (quiet_host (at_ns 102 0) (at_ns 0 0)) started_state = 2000000000
    /\ (d - 2000000000) / 1000 = 4294967296
    /\ calls_of (host_sleepuntil d
                   (quiet_host (at_ns 102 0) (at_ns 0 0)) started_state)
       = [Call_clock_gettime CLOCK_MONOTONIC; Call_usleep 0]
    /\ g_start booted_state = 0
    /\ elapsed late_host booted_state = 18446744073709550616
    /\ calls_of (host_sleepuntil 18446744073709550616 late_host booted_state)
       = [Call_clock_gettime CLOCK_MONOTONIC; Call_usleep 0].
Proof.
  eexists. split; [reflexivity|].
  unfold U64.range.
  repeat apply conj; by_evaluation.
Qed.

(** C6 fails at [d = 2^64 - 1] with the epoch at [100 s]: the 64-bit sum
    wraps, and the timer is programmed for [99.999999999 s], not for [d]
    plus the epoch. *)
Lemma host_settimer_posix_sum_wraps :
  exists its : itimerspec,
    calls_of (host_settimer Posix 18446744073709551615
                (quiet_host (at_ns 102 0) (at_ns 0 0)) started_state)
    = [Call_timer_settime 1 TIMER_ABSTIME its]
    /\ its_value its = at_ns 99 999999999
    /\ timespec_total_ns (its_value its) = 99999999999
    /\ 18446744073709551615 + g_start started_state = 18446744173709551615
    /\ U64.range 18446744073709551615
    /\ wf_state started_state.
Proof.
  eexists. split; [reflexivity|]. unfold wf_state, U64.range.
  repeat apply conj; by_evaluation.
Qed.

(** C6: with the epoch at [100 s], the deadline [5.25 s] is programmed as
    the absolute time [105 s + 250000000 ns], with no repeat. *)
Lemma host_settimer_posix_absolute_witness :
  exists its : itimerspec,
    host_settimer Posix 5250000000
      (quiet_host (at_ns 102 0) (at_ns 0 0)) started_state
    = (0, started_state, [Call_timer_settime 1 TIMER_ABSTIME its])
    /\ tv_sec (its_value its) = 105
    /\ tv_nsec (its_value its) = 250000000
    /\ its_interval its = {| tv_sec := 0; tv_nsec := 0 |}.
Proof.
  destruct (host_settimer_posix_absolute
              (quiet_host (at_ns 102 0) (at_ns 0 0)) started_state 5250000000)
    as (its & Hrun & Hsec & Hnsec & _ & _ & _ & Hint & _).
  exists its. split; [exact Hrun|]. split; [exact Hsec|]. split; [exact Hnsec|].
  exact Hint.
Defined.

(** C7: reads at [102 s] and at [103 s] of the monotonic clock, with a sleep
    and a re-arm in between. *)
Lemma monotonic_reads_never_decrease_witness :
  wf_state started_state
  /\ result_of (host_gettime false (quiet_host (at_ns 102 0) (at_ns 0 0))
                  started_state) = 2000000000
  /\ 2000000000
     <= result_of (host_gettime false (quiet_host (at_ns 103 0) (at_ns 0 0))
          (state_of (run_ops SIGALRM_14 Posix
             [(Op_sleep 1000, quiet_host (at_ns 102 0) (at_ns 0 0));
              (Op_settimer 5000000000, quiet_host (at_ns 102 500) (at_ns 0 0))]
             (state_of (host_gettime false (quiet_host (at_ns 102 0) (at_ns 0 0))
                          started_state))))).
Proof.
  assert (Hwf : wf_state started_state)
    by concrete_range.
  split; [exact Hwf|]. split; [reflexivity|].
  apply (monotonic_reads_never_decrease SIGALRM_14 Posix
           (quiet_host (at_ns 102 0) (at_ns 0 0))
           (quiet_host (at_ns 103 0) (at_ns 0 0))
           started_state
           [(Op_sleep 1000, quiet_host (at_ns 102 0) (at_ns 0 0));
            (Op_settimer 5000000000, quiet_host (at_ns 102 500) (at_ns 0 0))]
           Hwf).
  - reflexivity.
  - by_evaluation.
  - by_evaluation.
Defined.

(** C9: the sleep of the run above has a positive argument. *)
Lemma host_sleepuntil_sleep_positive_witness :
  U64.range 2050000000
  /\ elapsed (quiet_host (at_ns 102 0) (at_ns 0 0)) started_state + 1000
     < U64.modulus
  /\ In (Call_usleep 50000)
        (calls_of (host_sleepuntil 2050000000
                     (quiet_host (at_ns 102 0) (at_ns 0 0)) started_state))
  /\ 2050000000 - elapsed (quiet_host (at_ns 102 0) (at_ns 0 0)) started_state
     < 4294967296000
  /\ 1 <= 50000.
Proof.
  assert (Hd : U64.range 2050000000) by concrete_range.
  assert (Hfit : elapsed (quiet_host (at_ns 102 0) (at_ns 0 0)) started_state + 1000
                 < U64.modulus) by by_evaluation.
  assert (Hin : In (Call_usleep 50000)
                   (calls_of (host_sleepuntil 2050000000
                                (quiet_host (at_ns 102 0) (at_ns 0 0))
                                started_state)))
    by (right; left; reflexivity).
  assert (Hshort : 2050000000
                   - elapsed (quiet_host (at_ns 102 0) (at_ns 0 0)) started_state
                   < 4294967296000) by by_evaluation.
  split; [exact Hd|]. split; [exact Hfit|]. split; [exact Hin|].
  split; [exact Hshort|].
  exact (proj2 (proj2 (proj2 (proj2 (proj2
           (host_sleepuntil_sleep_positive
              (quiet_host (at_ns 102 0) (at_ns 0 0)) started_state
              2050000000 50000 Hd Hfit Hin)))) Hshort)).
Defined.

(** C9 fails two seconds after the epoch for a deadline [2^32] microseconds
    ahead: the sleep is issued with the argument [0], the quotient
    [4294967296] reduced by [useconds_t].  It fails, too, when the elapsed
    time is [2^64 - 1000], the guard's [now + 1000] wrapping to [0]: a
    deadline [500 ns] ahead gets a sleep whose argument is [0], and the
    deadline [1], far behind, gets a sleep computed from a subtraction that
    wrapped. *)
Lemma host_sleepuntil_zero_sleep_issued :
  exists now : Z,
    now = 18446744073709550616
    /\ elapsed (quiet_host (at_ns 102 0) (at_ns 0 0)) started_state + 1000
       < 4296967296000
    /\ U64.range 4296967296000
    /\ In (Call_usleep 0)
          (calls_of (host_sleepuntil 4296967296000
                       (quiet_host (at_ns 102 0) (at_ns 0 0)) started_state))
    /\ elapsed late_host booted_state = now
    /\ U64.add now 1000 = 0
    /\ U64.range (now + 500)
    /\ calls_of (host_sleepuntil (now + 500) late_host booted_state)
       = [Call_clock_gettime CLOCK_MONOTONIC; Call_usleep 0]
    /\ 1 < now
    /\ U64.sub 1 now = 1001
    /\ calls_of (host_sleepuntil 1 late_host booted_state)
       = [Call_clock_gettime CLOCK_MONOTONIC; Call_usleep 1].
Proof.
  eexists. split; [reflexivity|].
  unfold U64.range.
  repeat apply conj; try by_evaluation.
  right; left; reflexivity.
Qed.

(** C10: a run of the five other operations from the initialized state. *)
Lemma state_written_only_by_inittimer_witness :
  no_init [(Op_gettime false, quiet_host (at_ns 102 0) (at_ns 0 0));
           (Op_sleep 1500, quiet_host (at_ns 102 1) (at_ns 0 0));
           (Op_sleepuntil 2050000000, quiet_host (at_ns 102 2) (at_ns 0 0));
           (Op_settimer 5000000000, quiet_host (at_ns 102 3) (at_ns 0 0));
           (Op_timerirq, quiet_host (at_ns 102 4) (at_ns 0 0));
           (Op_gettime true, quiet_host (at_ns 102 5) (at_ns 0 0))] = true
  /\ state_of (run_ops SIGALRM_14 Posix
       [(Op_gettime false, quiet_host (at_ns 102 0) (at_ns 0 0));
        (Op_sleep 1500, quiet_host (at_ns 102 1) (at_ns 0 0));
        (Op_sleepuntil 2050000000, quiet_host (at_ns 102 2) (at_ns 0 0));
        (Op_settimer 5000000000, quiet_host (at_ns 102 3) (at_ns 0 0));
        (Op_timerirq, quiet_host (at_ns 102 4) (at_ns 0 0));
        (Op_gettime true, quiet_host (at_ns 102 5) (at_ns 0 0))]
       started_state) = started_state.
Proof.
  split; [reflexivity|].
  apply (state_written_only_by_inittimer SIGALRM_14 Posix
           (quiet_host (at_ns 102 0) (at_ns 0 0)) started_state).
  reflexivity.
Defined.

(** * Further properties of the entry points *)

(** ** The two conversions between [timespec] and nanoseconds *)

Lemma timespec_ns_split (x : Z) :
  U64.range x -> timespec_ns (split_ns x) = x.
Proof.
  intros Hx. rewrite timespec_ns_wrap.
  destruct (split_seconds x) as [Hsum _].
  unfold split_ns. unfold timespec_total_ns in Hsum. rewrite Hsum.
  now apply wrap_small.
Qed.

Lemma split_timespec_ns (tp : timespec) :
  normalized tp -> split_ns (timespec_ns tp) = tp.
Proof.
  intros (Hsec & Hnsec & Hfit).
  rewrite timespec_ns_exact
    by (unfold U64.range, timespec_total_ns in *; lia).
  destruct tp as [sec nsec]. unfold split_ns, timespec_total_ns, U64.div, U64.rem.
  simpl in *. f_equal.
  - symmetry. apply Z.div_unique with (r := nsec); lia.
  - symmetry. apply Z.mod_unique with (q := sec); lia.
Qed.

Lemma host_settimer_posix_split (h : host) (st : sim_state) (d : Z) :
  calls_of (host_settimer Posix d h st)
  = [Call_timer_settime (g_timer st) TIMER_ABSTIME
       {| its_value := split_ns (U64.add d (g_start st));
          its_interval := {| tv_sec := 0; tv_nsec := 0 |} |}].
Proof. rewrite host_settimer_run. reflexivity. Qed.

(** X1: the conversion of [host_gettime] and [host_inittimer]
    ([1000000000ull * tv_sec + tv_nsec]) and the split of [host_settimer]
    ([/ 1000000000], [% 1000000000]) undo each other: splitting a 64-bit
    nanosecond count and converting back gives the count, and converting a
    normalized [timespec] and splitting gives the [timespec] back. *)
Theorem timespec_conversions_round_trip (x : Z) (tp : timespec) :
  U64.range x -> normalized tp ->
  timespec_ns (split_ns x) = x
  /\ normalized (split_ns x)
  /\ split_ns (timespec_ns tp) = tp
  /\ U64.range (timespec_ns tp).
Proof.
  intros Hx Htp.
  split; [now apply timespec_ns_split|].
  split; [ | split; [now apply split_timespec_ns | apply timespec_ns_range]].
  destruct (split_seconds x) as [Hsum Hns].
  unfold normalized, split_ns. rewrite Hsum. cbn [tv_sec tv_nsec].
  split; [ | split; [exact Hns | apply Hx]].
  unfold U64.div, U64.range in *. apply Z.div_pos; lia.
Qed.

(** X2: on normalized [timespec]s the conversion to nanoseconds keeps the
    chronological order, both ways: a clock that does not go back gives
    nanosecond counts that do not go back. *)
Theorem timespec_ns_keeps_order (a b : timespec) :
  normalized a -> normalized b ->
  (timespec_le a b <-> timespec_ns a <= timespec_ns b).
Proof.
  intros (Hsa & Hna & Hfa) (Hsb & Hnb & Hfb).
  rewrite !timespec_ns_exact
    by (unfold U64.range, timespec_total_ns in *; lia).
  unfold timespec_le, timespec_total_ns. split.
  - intros [Hlt | [Heq Hle]]; nia.
  - intros Hle.
    destruct (Z.lt_trichotomy (tv_sec a) (tv_sec b)) as [Hlt | [Heq | Hgt]].
    + left; exact Hlt.
    + right; split; [exact Heq | nia].
    + exfalso. nia.
Qed.

(** ** Reading the clock after initialization *)

(** X3: a monotonic read made after [host_inittimer], with any operations
    other than a second initialization in between, returns the 64-bit
    difference between the sample of the read and the sample the
    initialization took, whether or not [timer_create] succeeded; it is the
    difference itself when the clock has not gone back, hence [0] when the
    clock has not moved. *)
Theorem gettime_after_inittimer
  (SIGALRM : Z) (p : platform) (h0 h : host) (st : sim_state)
  (between : list (op * host)) :
  no_init between = true ->
  result_of (host_gettime false h
    (state_of (run_ops SIGALRM p between
       (state_of (host_inittimer SIGALRM p h0 st)))))
  = U64.sub (host_now h) (host_now h0)
  /\ (host_now h0 <= host_now h ->
      U64.sub (host_now h) (host_now h0) = host_now h - host_now h0)
  /\ (host_now h = host_now h0 -> U64.sub (host_now h) (host_now h0) = 0).
Proof.
  intros Hno. rewrite run_ops_frame by assumption.
  rewrite host_gettime_run. unfold result_of; simpl.
  destruct (host_inittimer_epoch SIGALRM p h0 st) as [Hepoch _].
  rewrite Hepoch. fold (host_now h).
  pose proof (timespec_ns_range (clock_tp h CLOCK_MONOTONIC)) as Rh.
  pose proof (timespec_ns_range (clock_tp h0 CLOCK_MONOTONIC)) as R0.
  fold (host_now h) in Rh. fold (host_now h0) in R0.
  repeat apply conj.
  - reflexivity.
  - intros Hle. apply sub_exact; [exact Rh | unfold U64.range in *; lia].
  - intros Heq. rewrite Heq, sub_exact; [lia | exact R0 | unfold U64.range in *; lia].
Qed.

(** X4: the 64-bit difference of two monotonic reads made in the same state
    is the 64-bit difference of their two samples: the epoch cancels, whatever
    it is and whether or not either read wrapped. *)
Theorem read_difference_ignores_epoch (h1 h2 : host) (st : sim_state) :
  U64.sub (result_of (host_gettime false h2 st))
          (result_of (host_gettime false h1 st))
  = U64.sub (host_now h2) (host_now h1).
Proof.
  rewrite !host_gettime_run. unfold result_of; simpl.
  fold (host_now h1) (host_now h2).
  unfold U64.sub, U64.wrap. pose proof modulus_pos as Hm.
  rewrite Zminus_mod_idemp_l, Zminus_mod_idemp_r.
  f_equal. lia.
Qed.

(** X5: on the [Posix] build, a monotonic read made when the clock shows
    the very time that [host_settimer d] programmed returns [d], for every
    64-bit [d] and every epoch, also when [d + g_start] overflowed: the
    addition of the epoch in [host_settimer] and its subtraction in
    [host_gettime] cancel modulo [2^64]. *)
Theorem read_at_programmed_expiry
  (h h' : host) (st : sim_state) (d : Z) (timerid : Z)
  (flags : settime_flags) (its : itimerspec) :
  U64.range d ->
  calls_of (host_settimer Posix d h st)
  = [Call_timer_settime timerid flags its] ->
  clock_tp h' CLOCK_MONOTONIC = its_value its ->
  result_of (host_gettime false h' st) = d.
Proof.
  intros Hd Hcalls Hclock.
  rewrite host_settimer_posix_split in Hcalls.
  injection Hcalls as _ _ Hits. subst its. simpl in Hclock.
  rewrite host_gettime_run. unfold result_of; simpl.
  rewrite Hclock, timespec_ns_split by apply wrap_range.
  unfold U64.sub, U64.add, U64.wrap. pose proof modulus_pos as Hm.
  rewrite Zminus_mod_idemp_l.
  replace (d + g_start st - g_start st) with d by lia.
  now apply Z.mod_small.
Qed.

(** ** Arming the timer, continued *)

(** X6: on the [Darwin] build [host_settimer d] makes one call,
    [setitimer (ITIMER_REAL, ...)], whose value is [d / 1000] microseconds
    split into seconds and microseconds (they add up to [d / 1000], the
    microseconds below [10^6]): the interval is [d] less its part below one
    microsecond.  The repeat interval is zero, the value of [setitimer] is
    returned, and the call made is the same whatever the clock shows and
    whatever the epoch is. *)
Theorem host_settimer_darwin_interval (h : host) (st : sim_state) (d : Z) :
  exists it : itimerval,
    host_settimer Darwin d h st
    = (setitimer_ret h, st, [Call_setitimer ITIMER_REAL it])
    /\ tvl_sec (itv_value it) * 1000000 + tv_usec (itv_value it) = d / 1000
    /\ 0 <= tv_usec (itv_value it) < 1000000
    /\ timeval_total_ns (itv_value it) = d - d mod 1000
    /\ itv_interval it = {| tvl_sec := 0; tv_usec := 0 |}
    /\ (forall h' st',
          calls_of (host_settimer Darwin d h' st')
          = [Call_setitimer ITIMER_REAL it]).
Proof.
  rewrite host_settimer_run. eexists. split; [reflexivity|].
  cbn [itv_value itv_interval].
  pose proof (split_microseconds (U64.div d 1000)) as Hsum.
  unfold timeval_total_ns in Hsum. cbn [tvl_sec tv_usec] in *.
  unfold U64.div, U64.rem in *.
  pose proof (Z.div_mod d 1000) as Ed.
  pose proof (Z.mod_pos_bound (d / 1000) 1000000) as Bu.
  split; [lia|]. split; [lia|]. split.
  - unfold timeval_total_ns. cbn [tvl_sec tv_usec]. lia.
  - split; [reflexivity|]. intros h' st'. rewrite host_settimer_run. reflexivity.
Qed.

(** X7: on the [Darwin] build a deadline below one microsecond is rounded
    down to a zero interval, [it_value = {0, 0}], which disarms the timer
    instead of arming it: no expiry follows. *)
Theorem host_settimer_darwin_submicrosecond (h : host) (st : sim_state) (d : Z) :
  0 <= d < 1000 ->
  calls_of (host_settimer Darwin d h st)
  = [Call_setitimer ITIMER_REAL
       {| itv_value := {| tvl_sec := 0; tv_usec := 0 |};
          itv_interval := {| tvl_sec := 0; tv_usec := 0 |} |}]
  /\ virtual_expiry h st (calls_of (host_settimer Darwin d h st)) = None.
Proof.
  intros Hd. rewrite host_settimer_run. unfold calls_of. cbn [snd].
  assert (Hq : U64.div d 1000 = 0) by (unfold U64.div; apply Z.div_small; lia).
  rewrite Hq. split; [reflexivity|].
  unfold virtual_expiry. cbn [last_arming is_arming arming_ret].
  unfold host_expiry. destruct (setitimer_ret h =? 0); reflexivity.
Qed.

(** X8: on the [Posix] build, [host_settimer d] made after
    [host_inittimer], with any operations other than a second
    initialization in between, programs the timer that this initialization
    created, for the absolute time [d] plus the sample the initialization
    took (as a 64-bit sum); had [timer_create] failed, the handle passed is
    the one [g_timer] held before, which nothing checks. *)
Theorem settimer_after_inittimer
  (SIGALRM : Z) (h0 h : host) (st : sim_state)
  (between : list (op * host)) (d : Z) :
  no_init between = true ->
  calls_of (host_settimer Posix d h
    (state_of (run_ops SIGALRM Posix between
       (state_of (host_inittimer SIGALRM Posix h0 st)))))
  = [Call_timer_settime
       (if timer_create_ret h0 =? 0 then timer_create_id h0 else g_timer st)
       TIMER_ABSTIME
       {| its_value := split_ns (U64.add d (host_now h0));
          its_interval := {| tv_sec := 0; tv_nsec := 0 |} |}].
Proof.
  intros Hno. rewrite run_ops_frame by assumption.
  rewrite host_settimer_posix_split, host_inittimer_run.
  reflexivity.
Qed.

(** ** Runs *)

Lemma run_op_epoch (SIGALRM : Z) (p : platform) (o : op) (h : host) (st : sim_state) :
  g_start (state_of (run_op SIGALRM p o h st))
  = if is_init o then host_now h else g_start st.
Proof.
  destruct (is_init o) eqn:Hinit.
  - destruct o; try discriminate Hinit. unfold run_op, bind.
    pose proof (host_inittimer_epoch SIGALRM p h st) as [He _].
    destruct (host_inittimer SIGALRM p h st) as [[r st1] t1]. exact He.
  - now rewrite run_op_frame.
Qed.

(** X9: nothing stops a second [host_inittimer]: each one overwrites the
    epoch with its own sample, so after any run the epoch is the sample
    taken by the last initialization of the run, and the epoch the run
    started with when there was none. *)
Theorem epoch_is_last_initialization
  (SIGALRM : Z) (p : platform) (os : list (op * host)) (st : sim_state) :
  g_start (state_of (run_ops SIGALRM p os st))
  = match last_init os with
    | Some h => host_now h
    | None => g_start st
    end.
Proof.
  revert st. induction os as [ | [o h] rest IH]; intros st; [reflexivity|].
  pose proof (run_op_epoch SIGALRM p o h st) as Hstep.
  simpl. destruct (run_op SIGALRM p o h st) as [[r st1] t1].
  unfold state_of in Hstep; simpl in Hstep.
  specialize (IH st1).
  destruct (run_ops SIGALRM p rest st1) as [[rs st2] t2].
  unfold state_of in *; simpl in *.
  rewrite IH. destruct (last_init rest) as [h' | ]; [reflexivity|].
  rewrite Hstep. destruct (is_init o); reflexivity.
Qed.

Lemma count_calls_app (f : host_call -> bool) (a b : list host_call) :
  count_calls f (a ++ b) = (count_calls f a + count_calls f b)%nat.
Proof. unfold count_calls. now rewrite filter_app, length_app. Qed.

(** What one operation contributes to the counts of a run. *)
Lemma run_op_counts (SIGALRM : Z) (p : platform) (o : op) (h : host) (st : sim_state) :
  count_calls (foreign_call p) (calls_of (run_op SIGALRM p o h st)) = 0%nat
  /\ count_calls is_arming (calls_of (run_op SIGALRM p o h st))
     = (if is_settimer o then 1 else 0)%nat
  /\ (count_calls is_usleep (calls_of (run_op SIGALRM p o h st))
      <= if is_sleep_op o then 1 else 0)%nat
  /\ (count_calls is_clock_read (calls_of (run_op SIGALRM p o h st)) <= 1)%nat.
Proof.
  destruct o as [ | rtc | nsec | nsec | nsec | ]; unfold run_op, bind.
  - rewrite host_inittimer_run. destruct p; cbv; auto.
  - rewrite host_gettime_run. destruct p, rtc; cbv; auto.
  - rewrite host_sleep_run. destruct p; cbv; auto.
  - rewrite host_sleepuntil_run. cbv zeta.
    destruct (U64.gtb nsec (U64.add (U64.sub (host_now h) (g_start st)) 1000));
      destruct p; cbv; auto.
  - rewrite host_settimer_run. destruct p; cbv; auto.
  - destruct p; cbv; auto.
Qed.

(** X10: no run makes a call its build does not have: the [Darwin] build
    never calls [timer_create] or [timer_settime], and the [Posix] build
    never calls [setitimer]. *)
Theorem build_keeps_to_its_timer_interface
  (SIGALRM : Z) (p : platform) (os : list (op * host)) (st : sim_state) :
  count_calls (foreign_call p) (calls_of (run_ops SIGALRM p os st)) = 0%nat.
Proof.
  revert st. induction os as [ | [o h] rest IH]; intros st; [reflexivity|].
  destruct (run_op_counts SIGALRM p o h st) as (Hforeign & _).
  simpl. destruct (run_op SIGALRM p o h st) as [[r st1] t1].
  specialize (IH st1).
  destruct (run_ops SIGALRM p rest st1) as [[rs st2] t2].
  unfold calls_of in *; simpl in *.
  rewrite count_calls_app, Hforeign, IH. reflexivity.
Qed.

(** X11: in any run the timer is programmed exactly once for each
    [host_settimer] and by nothing else; there are at most as many sleeps
    requested as there are calls of [host_sleep] and [host_sleepuntil], and
    at most one clock read for each operation. *)
Theorem run_call_counts
  (SIGALRM : Z) (p : platform) (os : list (op * host)) (st : sim_state) :
  count_calls is_arming (calls_of (run_ops SIGALRM p os st))
  = count_ops is_settimer os
  /\ (count_calls is_usleep (calls_of (run_ops SIGALRM p os st))
      <= count_ops is_sleep_op os)%nat
  /\ (count_calls is_clock_read (calls_of (run_ops SIGALRM p os st))
      <= length os)%nat.
Proof.
  revert st. induction os as [ | [o h] rest IH]; intros st.
  - repeat split; apply le_n.
  - destruct (run_op_counts SIGALRM p o h st) as (_ & Harm & Hsleep & Hclock).
    simpl. destruct (run_op SIGALRM p o h st) as [[r st1] t1].
    destruct (IH st1) as (IHarm & IHsleep & IHclock).
    destruct (run_ops SIGALRM p rest st1) as [[rs st2] t2].
    unfold calls_of, count_ops in *; simpl in *.
    rewrite !count_calls_app.
    destruct (is_settimer o), (is_sleep_op o); simpl; repeat split; lia.
Qed.

(** ** Sleeping, continued *)

(** X12: [host_sleep d] always makes exactly one [usleep] call, with an
    argument below [2^32].  Up to [4294967295000 ns] the microseconds asked
    for are zero for [d = 0] only; they are zero again from
    [4294967295001 ns] to [4294967296000 ns], where the ceiling [2^32] does
    not fit [useconds_t], and for the last [999] values of the type, for
    which [d + 999] overflows. *)
Theorem host_sleep_requests_zero_iff (h : host) (st : sim_state) (d : Z) :
  U64.range d ->
  exists usec : Z,
    calls_of (host_sleep d h st) = [Call_usleep usec]
    /\ 0 <= usec < 2 ^ 32
    /\ (d <= 4294967295000 -> (usec = 0 <-> d = 0))
    /\ (4294967295000 < d <= 4294967296000 -> usec = 0)
    /\ (U64.modulus <= d + 999 -> usec = 0).
Proof.
  intros Hd. rewrite host_sleep_run. eexists. split; [reflexivity|].
  split; [apply to_useconds_range|].
  unfold U64.range in Hd. rewrite modulus_value in *.
  pose proof (Z.div_mod (d + 999) 1000) as E.
  pose proof (Z.mod_pos_bound (d + 999) 1000) as B.
  split; [ | split].
  - intros Hfit.
    assert (Hadd : U64.add d 999 = d + 999)
      by (unfold U64.add; apply wrap_small; unfold U64.range;
          rewrite modulus_value; lia).
    rewrite Hadd. unfold U64.div.
    rewrite to_useconds_small by (rewrite useconds_modulus_value; lia).
    split; [intros Hz | intros Hz]; lia.
  - intros Hband.
    assert (Hadd : U64.add d 999 = d + 999)
      by (unfold U64.add; apply wrap_small; unfold U64.range;
          rewrite modulus_value; lia).
    rewrite Hadd. unfold U64.div.
    assert (Hq : (d + 999) / 1000 = 4294967296) by lia.
    rewrite Hq. reflexivity.
  - intros Hov.
    rewrite add_overflow;
      [ | unfold U64.range; rewrite modulus_value; lia
        | unfold U64.range; rewrite modulus_value; lia
        | rewrite modulus_value; lia ].
    unfold U64.div. rewrite modulus_value.
    rewrite Z.div_small by lia. reflexivity.
Qed.



(** ** The two builds compared *)

(** X15: when both arming calls succeed, for a deadline [d] of at least
    one microsecond with [d + g_start] within 64 bits, the timer armed by
    the [Posix] build expires at [d], or at once, at the instant of the
    call, when [d] has passed, while the timer armed by the [Darwin] build
    expires [d] less its part below one microsecond after the call.  So for
    a deadline not yet passed the [Darwin] expiry is later than the [Posix]
    one by the elapsed time at the call less the part of [d] below one
    microsecond. *)
Theorem darwin_expiry_lags_posix (h : host) (st : sim_state) (d : Z) :
  setitimer_ret h = 0 -> timer_settime_ret h = 0 ->
  1000 <= d -> 0 < d + g_start st < U64.modulus ->
  virtual_expiry h st (calls_of (host_settimer Posix d h st))
  = Some (Z.max (virtual_now h st) d)
  /\ virtual_expiry h st (calls_of (host_settimer Darwin d h st))
     = Some (virtual_now h st + (d - d mod 1000))
  /\ (virtual_now h st <= d ->
      virtual_expiry h st (calls_of (host_settimer Posix d h st)) = Some d
      /\ virtual_expiry h st (calls_of (host_settimer Darwin d h st))
         = Some (d + (virtual_now h st - d mod 1000))).
Proof.
  intros Hr1 Hr2 Hd Hfit. rewrite darwin_expiry, posix_expiry by assumption.
  pose proof (Z.div_mod d 1000) as E.
  split; [reflexivity|]. split; [f_equal; lia|].
  intros Hfuture. split; f_equal; lia.
Qed.

(** * Concrete runs of the further properties *)

(** X1: [5.25 s] as a count and as a [timespec]. *)
Lemma timespec_conversions_round_trip_witness :
  U64.range 5250000000
  /\ normalized (at_ns 5 250000000)
  /\ timespec_ns (split_ns 5250000000) = 5250000000
  /\ split_ns (timespec_ns (at_ns 5 250000000)) = at_ns 5 250000000.
Proof.
  assert (Hx : U64.range 5250000000) by concrete_range.
  assert (Htp : normalized (at_ns 5 250000000)).
  { unfold normalized. split; [by_evaluation|].
    split; [split; by_evaluation | by_evaluation]. }
  destruct (timespec_conversions_round_trip 5250000000 (at_ns 5 250000000) Hx Htp)
    as (H1 & _ & H3 & _).
  split; [exact Hx|]. split; [exact Htp|]. split; [exact H1 | exact H3].
Defined.

(** X2: [102.9 s] comes before [103.1 s]. *)
Lemma timespec_ns_keeps_order_witness :
  normalized (at_ns 102 900000000)
  /\ normalized (at_ns 103 100000000)
  /\ timespec_le (at_ns 102 900000000) (at_ns 103 100000000)
  /\ timespec_ns (at_ns 102 900000000) <= timespec_ns (at_ns 103 100000000).
Proof.
  assert (Ha : normalized (at_ns 102 900000000)).
  { unfold normalized. split; [by_evaluation|].
    split; [split; by_evaluation | by_evaluation]. }
  assert (Hb : normalized (at_ns 103 100000000)).
  { unfold normalized. split; [by_evaluation|].
    split; [split; by_evaluation | by_evaluation]. }
  assert (Hle : timespec_le (at_ns 102 900000000) (at_ns 103 100000000))
    by (left; by_evaluation).
  split; [exact Ha|]. split; [exact Hb|]. split; [exact Hle|].
  exact (proj1 (timespec_ns_keeps_order _ _ Ha Hb) Hle).
Defined.

(** X3: initialized at [100 s], read at [102 s] after a sleep. *)
Lemma gettime_after_inittimer_witness :
  no_init [(Op_sleep 1500, quiet_host (at_ns 101 0) (at_ns 0 0))] = true
  /\ result_of (host_gettime false (quiet_host (at_ns 102 0) (at_ns 0 0))
       (state_of (run_ops SIGALRM_14 Posix
          [(Op_sleep 1500, quiet_host (at_ns 101 0) (at_ns 0 0))]
          (state_of (host_inittimer SIGALRM_14 Posix
                       (timerless_host (at_ns 100 0)) initial_state)))))
     = 2000000000.
Proof.
  split; [reflexivity|].
  exact (proj1 (gettime_after_inittimer SIGALRM_14 Posix
                  (timerless_host (at_ns 100 0))
                  (quiet_host (at_ns 102 0) (at_ns 0 0)) initial_state
                  [(Op_sleep 1500, quiet_host (at_ns 101 0) (at_ns 0 0))]
                  eq_refl)).
Defined.

(** X5: the deadline [2^64 - 1] with the epoch at [100 s]: the sum
    overflows, and the read at the programmed time still returns the
    deadline. *)
Lemma read_at_programmed_expiry_witness :
  U64.range 18446744073709551615
  /\ calls_of (host_settimer Posix 18446744073709551615
                 (quiet_host (at_ns 102 0) (at_ns 0 0)) started_state)
     = [Call_timer_settime 1 TIMER_ABSTIME
          {| its_value := at_ns 99 999999999;
             its_interval := {| tv_sec := 0; tv_nsec := 0 |} |}]
  /\ result_of (host_gettime false
                  (quiet_host (at_ns 99 999999999) (at_ns 0 0)) started_state)
     = 18446744073709551615.
Proof.
  assert (Hd : U64.range 18446744073709551615) by concrete_range.
  assert (Hcalls :
    calls_of (host_settimer Posix 18446744073709551615
                (quiet_host (at_ns 102 0) (at_ns 0 0)) started_state)
    = [Call_timer_settime 1 TIMER_ABSTIME
         {| its_value := at_ns 99 999999999;
            its_interval := {| tv_sec := 0; tv_nsec := 0 |} |}])
    by by_evaluation.
  split; [exact Hd|]. split; [exact Hcalls|].
  exact (read_at_programmed_expiry
           (quiet_host (at_ns 102 0) (at_ns 0 0))
           (quiet_host (at_ns 99 999999999) (at_ns 0 0))
           started_state 18446744073709551615 1 TIMER_ABSTIME _
           Hd Hcalls eq_refl).
Defined.

(** X7: a deadline of [999 ns] on the [Darwin] build. *)
Lemma host_settimer_darwin_submicrosecond_witness :
  0 <= 999 < 1000
  /\ virtual_expiry (quiet_host (at_ns 100 0) (at_ns 0 0)) started_state
       (calls_of (host_settimer Darwin 999
                    (quiet_host (at_ns 100 0) (at_ns 0 0)) started_state))
     = None.
Proof.
  assert (Hd : 0 <= 999 < 1000) by (split; by_evaluation).
  split; [exact Hd|].
  exact (proj2 (host_settimer_darwin_submicrosecond
                  (quiet_host (at_ns 100 0) (at_ns 0 0)) started_state 999 Hd)).
Defined.

(** X8: initialized at [100 s] with handle [1], armed for [5.25 s]. *)
Lemma settimer_after_inittimer_witness :
  no_init [(Op_gettime false, quiet_host (at_ns 101 0) (at_ns 0 0))] = true
  /\ calls_of (host_settimer Posix 5250000000
       (quiet_host (at_ns 102 0) (at_ns 0 0))
       (state_of (run_ops SIGALRM_14 Posix
          [(Op_gettime false, quiet_host (at_ns 101 0) (at_ns 0 0))]
          (state_of (host_inittimer SIGALRM_14 Posix
                       (quiet_host (at_ns 100 0) (at_ns 0 0)) initial_state)))))
     = [Call_timer_settime 1 TIMER_ABSTIME
          {| its_value := at_ns 105 250000000;
             its_interval := {| tv_sec := 0; tv_nsec := 0 |} |}].
Proof.
  split; [reflexivity|].
  exact (settimer_after_inittimer SIGALRM_14
           (quiet_host (at_ns 100 0) (at_ns 0 0))
           (quiet_host (at_ns 102 0) (at_ns 0 0)) initial_state
           [(Op_gettime false, quiet_host (at_ns 101 0) (at_ns 0 0))]
           5250000000 eq_refl).
Defined.

(** X12: one nanosecond is rounded up to one microsecond, not down to
    none. *)
Lemma host_sleep_requests_zero_iff_witness :
  U64.range 1
  /\ exists usec : Z,
       calls_of (host_sleep 1 (quiet_host (at_ns 102 0) (at_ns 0 0)) started_state)
       = [Call_usleep usec]
       /\ 0 <= usec < 2 ^ 32
       /\ (1 <= 4294967295000 -> (usec = 0 <-> 1 = 0))
       /\ (4294967295000 < 1 <= 4294967296000 -> usec = 0)
       /\ (U64.modulus <= 1 + 999 -> usec = 0).
Proof.
  assert (Hd : U64.range 1) by concrete_range.
  split; [exact Hd|].
  exact (host_sleep_requests_zero_iff
           (quiet_host (at_ns 102 0) (at_ns 0 0)) started_state 1 Hd).
Defined.



(** X15: the run of C1, two seconds after the epoch, deadline [5 s]; and a
    deadline of [1 s], already passed, which the [Posix] build lets expire
    at once while the [Darwin] build waits one more second. *)
Lemma darwin_expiry_lags_posix_witness :
  setitimer_ret (quiet_host (at_ns 102 0) (at_ns 0 0)) = 0
  /\ timer_settime_ret (quiet_host (at_ns 102 0) (at_ns 0 0)) = 0
  /\ 0 < 5000000000 + g_start started_state < U64.modulus
  /\ virtual_expiry (quiet_host (at_ns 102 0) (at_ns 0 0)) started_state
       (calls_of (host_settimer Posix 5000000000
                    (quiet_host (at_ns 102 0) (at_ns 0 0)) started_state))
     = Some 5000000000
  /\ virtual_expiry (quiet_host (at_ns 102 0) (at_ns 0 0)) started_state
       (calls_of (host_settimer Darwin 5000000000
                    (quiet_host (at_ns 102 0) (at_ns 0 0)) started_state))
     = Some (5000000000 + 2000000000)
  /\ virtual_expiry (quiet_host (at_ns 102 0) (at_ns 0 0)) started_state
       (calls_of (host_settimer Posix 1000000000
                    (quiet_host (at_ns 102 0) (at_ns 0 0)) started_state))
     = Some 2000000000
  /\ virtual_expiry (quiet_host (at_ns 102 0) (at_ns 0 0)) started_state
       (calls_of (host_settimer Darwin 1000000000
                    (quiet_host (at_ns 102 0) (at_ns 0 0)) started_state))
     = Some 3000000000.
Proof.
  assert (Hfit : 0 < 5000000000 + g_start started_state < U64.modulus)
    by (split; by_evaluation).
  assert (Hfit1 : 0 < 1000000000 + g_start started_state < U64.modulus)
    by (split; by_evaluation).
  assert (Hd : 1000 <= 5000000000) by by_evaluation.
  assert (Hd1 : 1000 <= 1000000000) by by_evaluation.
  assert (Hfuture : virtual_now (quiet_host (at_ns 102 0) (at_ns 0 0)) started_state
                    <= 5000000000) by by_evaluation.
  destruct (darwin_expiry_lags_posix
              (quiet_host (at_ns 102 0) (at_ns 0 0)) started_state
              5000000000 eq_refl eq_refl Hd Hfit) as (_ & _ & Hlag).
  destruct (Hlag Hfuture) as (Hposix & Hdarwin).
  destruct (darwin_expiry_lags_posix
              (quiet_host (at_ns 102 0) (at_ns 0 0)) started_state
              1000000000 eq_refl eq_refl Hd1 Hfit1) as (Hposix1 & Hdarwin1 & _).
  split; [reflexivity|]. split; [reflexivity|]. split; [exact Hfit|].
  split; [exact Hposix|]. split; [exact Hdarwin|].
  split; [exact Hposix1 | exact Hdarwin1].
Defined.
